(** * Influence simulation: the session state machine of [app.py]

    A shallow embedding of the Streamlit script [app.py]: the Python string
    operations used by the scenario parser, the three agent-calling
    functions, and one script run of [main] over the five session keys.
    Theorems about the embedding follow the definitions. *)

From Stdlib Require Import Ascii String DecimalString.
From Stdlib Require Import List Bool Arith NArith ZArith Lia.
Import ListNotations.

(** ** Python strings *)

(** A Python [str] is a sequence of Unicode code points. *)
Definition char := N.
Definition pystr := list char.

(** An ASCII literal of the source, as a [pystr]. *)
Definition lit (s : string) : pystr := map N_of_ascii (list_ascii_of_string s).

Definition nl : pystr := [10%N].

(** [str.isspace] on one code point: the code points CPython's
    [_PyUnicode_IsWhitespace] accepts. *)
Definition py_isspace (c : char) : bool :=
  ((9 <=? c) && (c <=? 13) || (28 <=? c) && (c <=? 32)
   || (c =? 133) || (c =? 160) || (c =? 5760)
   || (8192 <=? c) && (c <=? 8202)
   || (c =? 8232) || (c =? 8233) || (c =? 8239) || (c =? 8287)
   || (c =? 12288))%N.

Fixpoint lstrip (s : pystr) : pystr :=
  match s with
  | c :: s' => if py_isspace c then lstrip s' else s
  | [] => []
  end.

Definition rstrip (s : pystr) : pystr := rev (lstrip (rev s)).

(** [s.strip()] *)
Definition strip (s : pystr) : pystr := rstrip (lstrip s).

(** [s.startswith(p)] *)
Fixpoint starts_with (p s : pystr) : bool :=
  match p, s with
  | [], _ => true
  | _ :: _, [] => false
  | a :: p', b :: s' => (a =? b)%N && starts_with p' s'
  end.

(** [s.find(sub)]: the lowest index at which [sub] occurs in [s]. *)
Fixpoint find (sub s : pystr) : option nat :=
  if starts_with sub s then Some 0
  else match s with
       | [] => None
       | _ :: s' => option_map S (find sub s')
       end.

(** [sub in s] *)
Definition py_in (sub s : pystr) : bool :=
  match find sub s with Some _ => true | None => false end.

(** [s.split(sep)] for a non-empty [sep]: cut at each occurrence found from
    the left, searching on after the end of the previous one.  Every cut
    consumes at least one character, so [S (length s)] rounds suffice. *)
Fixpoint split_fuel (fuel : nat) (sep s : pystr) : list pystr :=
  match fuel with
  | 0 => [s]
  | S fuel' =>
      match find sep s with
      | None => [s]
      | Some i => firstn i s :: split_fuel fuel' sep (skipn (i + length sep) s)
      end
  end.

Definition py_split (sep s : pystr) : list pystr :=
  split_fuel (S (length s)) sep s.

(** [s.replace(old, new)] for a non-empty [old]. *)
Fixpoint replace_fuel (fuel : nat) (old new s : pystr) : pystr :=
  match fuel with
  | 0 => s
  | S fuel' =>
      match find old s with
      | None => s
      | Some i =>
          firstn i s ++ new ++ replace_fuel fuel' old new (skipn (i + length old) s)
      end
  end.

Definition py_replace (old new s : pystr) : pystr :=
  replace_fuel (S (length s)) old new s.

(** [parts[i]] on a list that is long enough; the parser only indexes
    [parts] below its length. *)
Definition item (parts : list pystr) (i : nat) : pystr := nth i parts [].

(** ** The scenario parser of [call_scenario_designer] *)

Definition DELIM : pystr := lit "EVALUATION_RUBRIC:".
Definition LABEL : pystr := lit "SCENARIO:".
Definition NO_RUBRIC : pystr := lit "No rubric found.".

(** Lines 114-123: what [call_scenario_designer] returns for the reply
    [text_out]. *)
Definition parse_reply (text_out : pystr) : pystr * pystr :=
  if py_in DELIM text_out then
    let parts := py_split DELIM text_out in
    let scenario_part := strip (py_replace LABEL [] (item parts 0)) in
    let rubric_part := strip (item parts 1) in
    (scenario_part, rubric_part)
  else
    let scenario_part := strip text_out in
    let rubric_part := NO_RUBRIC in
    (scenario_part, rubric_part).

(** The parse as section 4.3 of the specification words it: the text before
    the delimiter with a leading [SCENARIO:] label stripped, and the whole
    text after the delimiter. *)
Definition drop_leading_label (s : pystr) : pystr :=
  if starts_with LABEL (lstrip s) then skipn (length LABEL) (lstrip s) else s.

Definition spec_parse_reply (text_out : pystr) : pystr * pystr :=
  match find DELIM text_out with
  | Some i =>
      (strip (drop_leading_label (firstn i text_out)),
       strip (skipn (i + length DELIM) text_out))
  | None => (strip text_out, NO_RUBRIC)
  end.

(** ** Prompt templates (section 3 of the script) *)

(** One template line, with its newline. *)
Definition ln (s : string) : pystr := lit s ++ nl.

Definition dquote : pystr := [34%N].

(** How [str.format] renders an [int] field. *)
Definition fmt_int (z : Z) : pystr := lit (NilEmpty.string_of_int (Z.to_int z)).

(** How [str.format] renders a field read from the session, which is a
    [str] or [None]. *)
Definition fmt_opt (o : option pystr) : pystr :=
  match o with Some s => s | None => lit "None" end.

Definition INFLUENCE_DATA : pystr :=
  nl ++ ln "[ ... Your Influence Data goes here in full ... ]".

(** [SCENARIO_DESIGNER_PROMPT_TEMPLATE.format(...)] *)
Definition scenario_designer_prompt
    (tactics scenario_details role make_it_up difficulty influence_data : pystr)
    : pystr :=
  nl ++ ln "You are the Scenario Designer Agent (o3-mini). "
  ++ lit "You have 'reasoning_effort=" ++ dquote ++ lit "high" ++ dquote
  ++ ln "' to produce a thoughtful scenario."
  ++ nl
  ++ ln "User inputs:"
  ++ lit "- Influence tactics to practice: " ++ tactics ++ nl
  ++ lit "- User scenario details: " ++ scenario_details ++ nl
  ++ lit "- Desired role: " ++ role ++ nl
  ++ lit "- Make it up? " ++ make_it_up ++ nl
  ++ lit "- Difficulty: " ++ difficulty ++ nl
  ++ nl
  ++ ln "Use the following Influence Data to inform your scenario design:"
  ++ influence_data ++ nl
  ++ nl
  ++ ln "Tasks:"
  ++ ln "1. Create a realistic, detailed scenario requiring the user to apply at least two different influence tactics."
  ++ ln "2. Produce a multi-criteria evaluation rubric (scoring or rating) that will be used to judge the user's performance."
  ++ ln "3. Output must contain:"
  ++ ln "   - SCENARIO:"
  ++ ln "   - EVALUATION_RUBRIC:".

(** [SIMULATION_FACILITATOR_PROMPT_TEMPLATE.format(...)] *)
Definition simulation_facilitator_prompt
    (scenario_text conversation_history : pystr) : pystr :=
  nl ++ ln "You are the Simulation Facilitator Agent (gpt-4o)."
  ++ ln "Scenario:"
  ++ scenario_text ++ nl
  ++ nl
  ++ ln "Incorporate relevant influence frameworks, relationships, power tactics, etc."
  ++ ln "Conversation so far:"
  ++ conversation_history ++ nl
  ++ nl
  ++ lit "Respond with the next scenario development and ask the user, "
  ++ [8220%N] ++ lit "What will you do next?" ++ [8221%N] ++ ln " "
  ++ ln "Invite them to respond in paragraphs.".

(** [EVALUATOR_PROMPT_TEMPLATE.format(...)] *)
Definition evaluator_prompt
    (scenario_text conversation_history evaluation_rubric : pystr) : pystr :=
  nl ++ ln "You are the Evaluator & Feedback Agent (gpt-4.5)."
  ++ nl
  ++ ln "Scenario:"
  ++ scenario_text ++ nl
  ++ nl
  ++ ln "User-Facilitator Conversation:"
  ++ conversation_history ++ nl
  ++ nl
  ++ ln "Evaluation Rubric:"
  ++ evaluation_rubric ++ nl
  ++ nl
  ++ lit "1) Score the user" ++ [8217%N] ++ ln "s performance against the rubric."
  ++ ln "2) Provide detailed feedback (strengths, weaknesses)."
  ++ ln "3) Reference relevant influence frameworks in your explanation.".

(** ** Session state, gateway and script effects *)

(** One entry of [simulation_messages]: a dict with keys [role] and
    [content]. *)
Record Msg := mkMsg { role : pystr; content : pystr }.

(** [st.session_state] once the guards at lines 16-25 have run: the five
    keys are present. *)
Record Session := mkSession {
  scenario_output : option pystr;
  evaluation_rubric : option pystr;
  simulation_messages : list Msg;
  evaluation_feedback : option pystr;
  simulation_finished : bool
}.

(** The values the guards at lines 16-25 give the keys of a fresh session. *)
Definition initial_session : Session :=
  mkSession None None [] None false.

Inductive Key :=
| K_scenario_output
| K_evaluation_rubric
| K_simulation_messages
| K_evaluation_feedback
| K_simulation_finished.

(** Sampling control of a completion call: [reasoning_effort=...] or
    [temperature=t], the temperature in tenths (7 is 0.7). *)
Inductive Sampling :=
| ReasoningEffort (level : pystr)
| Temperature (tenths : Z).

(** The arguments of one [client.chat.completions.create] call; [system]
    and [user] are the contents of the two messages. *)
Record Request := mkRequest {
  model : pystr;
  sampling : Sampling;
  system : pystr;
  user : pystr
}.

(** Ways the completion call can fail (section 4.2 of the specification);
    in the script each is an exception raised by the client. *)
Inductive GatewayError := AUTH | RATE_LIMIT | TIMEOUT | MALFORMED_RESPONSE | UNKNOWN.

(** What a completion call gives back: the content of the first choice, or
    an exception. *)
Inductive Reply :=
| Text (text_out : pystr)
| Fails (e : GatewayError).

Definition Gateway := Request -> Reply.

(** What a script run does that is visible outside its local variables.
    Calls that only draw (title, header, markdown, write, columns) are left
    out: they read the session and return nothing. *)
Inductive Event :=
| EvCall (req : Request)
| EvStore (k : Key)
| EvAppend (m : Msg)
| EvWarning (text : pystr)
| EvSuccess (text : pystr)
| EvInfo (text : pystr).

Inductive Result (A : Type) :=
| Done (a : A)
| Raised (e : GatewayError).
Arguments Done {A} a.
Arguments Raised {A} e.

(** A piece of the script: it runs on the session and leaves a session, the
    events in order, and a value or the exception that stopped it.  The
    session keeps what was written before an exception. *)
Definition Script (A : Type) := Session -> Session * list Event * Result A.

Definition ret {A} (a : A) : Script A := fun s => (s, [], Done a).

Definition bind {A B} (m : Script A) (k : A -> Script B) : Script B :=
  fun s =>
    let '(s1, t1, r1) := m s in
    match r1 with
    | Done a => let '(s2, t2, r2) := k a s1 in (s2, t1 ++ t2, r2)
    | Raised e => (s1, t1, Raised e)
    end.

Notation "x <- m ;; k" := (bind m (fun x => k))
  (at level 61, m at next level, right associativity).
Notation "m ;; k" := (bind m (fun _ => k))
  (at level 61, right associativity).
Notation "' pat <- m ;; k" := (bind m (fun x => match x with pat => k end))
  (at level 61, pat pattern, m at next level, right associativity).

Definition raise {A} (e : GatewayError) : Script A := fun s => (s, [], Raised e).

Definition emit (ev : Event) : Script unit := fun s => (s, [ev], Done tt).

(** [st.session_state[key]] *)
Definition read {A} (field : Session -> A) : Script A := fun s => (s, [], Done (field s)).

(** [st.session_state[key] = value], one definition per key. *)
Definition store_scenario_output (v : option pystr) : Script unit :=
  fun s => (mkSession v (evaluation_rubric s) (simulation_messages s)
              (evaluation_feedback s) (simulation_finished s),
            [EvStore K_scenario_output], Done tt).

Definition store_evaluation_rubric (v : option pystr) : Script unit :=
  fun s => (mkSession (scenario_output s) v (simulation_messages s)
              (evaluation_feedback s) (simulation_finished s),
            [EvStore K_evaluation_rubric], Done tt).

Definition store_simulation_messages (v : list Msg) : Script unit :=
  fun s => (mkSession (scenario_output s) (evaluation_rubric s) v
              (evaluation_feedback s) (simulation_finished s),
            [EvStore K_simulation_messages], Done tt).

Definition store_evaluation_feedback (v : option pystr) : Script unit :=
  fun s => (mkSession (scenario_output s) (evaluation_rubric s) (simulation_messages s)
              v (simulation_finished s),
            [EvStore K_evaluation_feedback], Done tt).

Definition store_simulation_finished (v : bool) : Script unit :=
  fun s => (mkSession (scenario_output s) (evaluation_rubric s) (simulation_messages s)
              (evaluation_feedback s) v,
            [EvStore K_simulation_finished], Done tt).

(** [st.session_state["simulation_messages"].append(m)]: the list held by
    the session is extended in place. *)
Definition append_message (m : Msg) : Script unit :=
  fun s => (mkSession (scenario_output s) (evaluation_rubric s)
              (simulation_messages s ++ [m])
              (evaluation_feedback s) (simulation_finished s),
            [EvAppend m], Done tt).

(** [a == b] on strings. *)
Fixpoint str_eqb (a b : pystr) : bool :=
  match a, b with
  | [], [] => true
  | x :: a', y :: b' => (x =? y)%N && str_eqb a' b'
  | _, _ => false
  end.

(** The body of both loops that build [conversation_text] (lines 225-226
    and 252-253): one message added to the text so far. *)
Definition add_message (conversation_text : pystr) (m : Msg) : pystr :=
  let role_label := if str_eqb (role m) (lit "user") then lit "USER" else lit "FACILITATOR" in
  conversation_text ++ (role_label ++ lit ": " ++ content m ++ nl).

(** Lines 223-226, the loop of the move handler. *)
Definition conversation_text_move (messages : list Msg) : pystr :=
  fold_left add_message messages [].

(** Lines 250-253, the loop of the evaluation block. *)
Definition conversation_text_eval (messages : list Msg) : pystr :=
  fold_left add_message messages [].

(** The rendering of section 4.4 step 3 of the specification: every turn
    as its role label, a colon and a space, its content and a newline. *)
Definition role_label_of (m : Msg) : pystr :=
  if str_eqb (role m) (lit "user") then lit "USER" else lit "FACILITATOR".

Definition render_turn (m : Msg) : pystr :=
  role_label_of m ++ lit ": " ++ content m ++ nl.

Definition render_transcript (t : list Msg) : pystr := flat_map render_turn t.

(** ** Widgets *)

Inductive Button :=
| GenerateScenario
| SubmitMove
| FinishEvaluate
| RestartEverything.

Definition Button_eqb (a b : Button) : bool :=
  match a, b with
  | GenerateScenario, GenerateScenario
  | SubmitMove, SubmitMove
  | FinishEvaluate, FinishEvaluate
  | RestartEverything, RestartEverything => true
  | _, _ => false
  end.

(** The two options of the radio widget. *)
Inductive YesNo := Yes | No.

Definition YesNo_str (o : YesNo) : pystr :=
  match o with Yes => lit "Yes" | No => lit "No" end.

(** What the front end hands to one script run: the button whose click
    caused the run, if any, and the current values of the input widgets. *)
Record Widgets := mkWidgets {
  clicked : option Button;
  user_tactics : pystr;
  user_scenario : pystr;
  user_role : pystr;
  user_make_up : YesNo;
  user_difficulty : Z;
  user_input : pystr
}.

(** [st.button(label)]: true in the run caused by a click on that button. *)
Definition button (w : Widgets) (b : Button) : bool :=
  match clicked w with
  | Some b' => Button_eqb b b'
  | None => false
  end.

Definition is_None {A} (o : option A) : bool :=
  match o with None => true | Some _ => false end.

(** Truth value of a string: [not s] holds for the empty string. *)
Definition is_empty (s : pystr) : bool :=
  match s with [] => true | _ :: _ => false end.

(** ** The agent-calling functions and [main] *)

Section Script.

(** [client.chat.completions.create], as far as the script sees it. *)
Variable complete : Gateway.

Definition create (req : Request) : Script pystr :=
  emit (EvCall req) ;;
  match complete req with
  | Text text_out => ret text_out
  | Fails e => raise e
  end.

(** Lines 94-123. *)
Definition call_scenario_designer
    (tactics scenario_details role : pystr) (make_it_up : YesNo) (difficulty : Z)
    : Script (pystr * pystr) :=
  let prompt :=
    scenario_designer_prompt tactics scenario_details role
      (YesNo_str make_it_up) (fmt_int difficulty) INFLUENCE_DATA in
  text_out <- create (mkRequest (lit "o3-mini") (ReasoningEffort (lit "high"))
                        (lit "You are a helpful scenario designer.") prompt) ;;
  ret (parse_reply text_out).

(** Lines 126-140. *)
Definition call_simulation_facilitator
    (scenario_text conversation_text : pystr) : Script pystr :=
  let prompt := simulation_facilitator_prompt scenario_text conversation_text in
  create (mkRequest (lit "gpt-4o") (Temperature 7)
            (lit "You are the simulation facilitator.") prompt).

(** Lines 143-158; the two session values may be [None]. *)
Definition call_evaluator
    (scenario_text : option pystr) (conversation_text : pystr)
    (rubric_text : option pystr) : Script pystr :=
  let prompt :=
    evaluator_prompt (fmt_opt scenario_text) conversation_text (fmt_opt rubric_text) in
  create (mkRequest (lit "gpt-4o") (Temperature 7)
            (lit "You are the evaluator.") prompt).

(** Lines 170-188: block (A), scenario setup. *)
Definition block_A (w : Widgets) : Script unit :=
  scenario <- read scenario_output ;;
  if is_None scenario then
    if button w GenerateScenario then
      '(scenario_text, rubric_text) <-
        call_scenario_designer (user_tactics w) (user_scenario w) (user_role w)
          (user_make_up w) (user_difficulty w) ;;
      store_scenario_output (Some scenario_text) ;;
      store_evaluation_rubric (Some rubric_text) ;;
      emit (EvSuccess (lit "Scenario Generated! Please scroll down to continue."))
    else ret tt
  else ret tt.

(** Lines 214-233: the handler of the Submit Move button. *)
Definition submit_move (scenario_text user_input : pystr) : Script unit :=
  if is_empty (strip user_input) then
    emit (EvWarning (lit "Please enter a move."))
  else
    append_message (mkMsg (lit "user") user_input) ;;
    messages <- read simulation_messages ;;
    let conversation_text := conversation_text_move messages in
    facilitator_output <- call_simulation_facilitator scenario_text conversation_text ;;
    append_message (mkMsg (lit "assistant") facilitator_output) ;;
    emit (EvSuccess (lit "Move submitted! Scroll down to see the facilitator's response.")).

(** Lines 236-238: the handler of the Finish & Evaluate button. *)
Definition finish : Script unit :=
  store_simulation_finished true ;;
  emit (EvSuccess (lit "You've chosen to finish. Scroll to Step 3 for evaluation.")).

(** Lines 193-238: block (B), the simulation. *)
Definition block_B (w : Widgets) : Script unit :=
  scenario <- read scenario_output ;;
  finished <- read simulation_finished ;;
  match scenario with
  | Some scenario_text =>
      if negb finished then
        (if button w SubmitMove then submit_move scenario_text (user_input w)
         else ret tt) ;;
        (if button w FinishEvaluate then finish else ret tt)
      else ret tt
  | None => ret tt
  end.

(** Lines 246-262: the evaluation, behind its guard. *)
Definition evaluate : Script unit :=
  feedback_now <- read evaluation_feedback ;;
  if is_None feedback_now then
    emit (EvInfo (lit "Evaluating your entire conversation... please wait.")) ;;
    messages <- read simulation_messages ;;
    let conversation_text := conversation_text_eval messages in
    scenario <- read scenario_output ;;
    rubric <- read evaluation_rubric ;;
    feedback <- call_evaluator scenario conversation_text rubric ;;
    store_evaluation_feedback (Some feedback) ;;
    emit (EvSuccess (lit "Evaluation complete! See below for detailed feedback."))
  else ret tt.

(** Lines 270-276: the handler of the Restart Everything button. *)
Definition restart : Script unit :=
  store_scenario_output None ;;
  store_evaluation_rubric None ;;
  store_simulation_messages [] ;;
  store_evaluation_feedback None ;;
  store_simulation_finished false ;;
  emit (EvSuccess (lit "All cleared. Scroll up to Step 1 to begin again.")).

(** Lines 243-276: block (C), evaluation and restart. *)
Definition block_C (w : Widgets) : Script unit :=
  finished <- read simulation_finished ;;
  if finished then
    evaluate ;;
    (if button w RestartEverything then restart else ret tt)
  else ret tt.

(** Lines 164-276: one run of [main]. *)
Definition main (w : Widgets) : Script unit :=
  block_A w ;; block_B w ;; block_C w.

End Script.

(** ** Reading a run *)

Definition session_of {A} (r : Session * list Event * Result A) : Session := fst (fst r).
Definition events_of {A} (r : Session * list Event * Result A) : list Event := snd (fst r).
Definition result_of {A} (r : Session * list Event * Result A) : Result A := snd r.

Definition raised {A} (r : Result A) : bool :=
  match r with Raised _ => true | Done _ => false end.

(** The completion requests among the events, in order. *)
Fixpoint calls (t : list Event) : list Request :=
  match t with
  | EvCall req :: t' => req :: calls t'
  | _ :: t' => calls t'
  | [] => []
  end.

Definition Key_eqb (a b : Key) : bool :=
  match a, b with
  | K_scenario_output, K_scenario_output
  | K_evaluation_rubric, K_evaluation_rubric
  | K_simulation_messages, K_simulation_messages
  | K_evaluation_feedback, K_evaluation_feedback
  | K_simulation_finished, K_simulation_finished => true
  | _, _ => false
  end.

(** How many times key [k] was assigned. *)
Fixpoint stores (k : Key) (t : list Event) : nat :=
  match t with
  | EvStore k' :: t' => (if Key_eqb k k' then 1 else 0) + stores k t'
  | _ :: t' => stores k t'
  | [] => 0
  end.

(** Script runs one after the other, each with the gateway behaviour and the
    widget values of its moment.  A run stopped by an exception leaves the
    session as it was at that point, and the next run starts from it. *)
Fixpoint runs (steps : list (Gateway * Widgets)) (s : Session) : Session * list Event :=
  match steps with
  | [] => (s, [])
  | (complete, w) :: steps' =>
      let r := main complete w s in
      let '(s', t') := runs steps' (session_of r) in
      (s', events_of r ++ t')
  end.

(** The sessions a user can bring about, starting from a fresh one. *)
Inductive reachable : Session -> Prop :=
| reachable_initial : reachable initial_session
| reachable_run complete w s :
    reachable s -> reachable (session_of (main complete w s)).

(** The states of the controller (section 4.6 of the specification), read
    off the session the way the three guards of [main] do. *)
Inductive State := SETUP | SIMULATING | FINISHED_evaluating | FINISHED_evaluated.

Definition state_of (s : Session) : State :=
  if simulation_finished s then
    (if is_None (evaluation_feedback s) then FINISHED_evaluating else FINISHED_evaluated)
  else
    (if is_None (scenario_output s) then SETUP else SIMULATING).

(** ** Auxiliary notions used in the statements *)

(** A string whose last character occurs nowhere else in it cannot overlap
    a copy of itself. *)
Definition last_unique (d : pystr) : bool :=
  match rev d with
  | [] => false
  | z :: r => negb (existsb (N.eqb z) r)
  end.

(** A move is blank when it is empty or made of whitespace only. *)
Definition blank (s : pystr) : bool := forallb py_isspace s.

(** The invariants of section 3 of the specification, as a test on a
    session: scenario and rubric are set together, the transcript is empty
    while there is no scenario, a finished session has a scenario, and
    feedback exists only in a finished session. *)
Definition consistent (s : Session) : bool :=
  Bool.eqb (is_None (evaluation_rubric s)) (is_None (scenario_output s))
  && implb (is_None (scenario_output s))
       (match simulation_messages s with [] => true | _ :: _ => false end)
  && implb (simulation_finished s) (negb (is_None (scenario_output s)))
  && implb (negb (is_None (evaluation_feedback s))) (simulation_finished s).

(** The reply of the end-to-end scenario of the specification. *)
Definition example_reply : pystr :=
  lit "SCENARIO: A negotiation." ++ nl ++ lit "EVALUATION_RUBRIC:" ++ nl
  ++ lit "Score clarity 1-5.".

Definition replies (text_out : pystr) : Gateway := fun _ => Text text_out.

Definition times_out : Gateway := fun _ => Fails TIMEOUT.

Definition click (b : Button) (move : pystr) : Widgets :=
  mkWidgets (Some b) (lit "reciprocity") [] (lit "negotiator") Yes 3 move.

Definition no_click : Widgets :=
  mkWidgets None (lit "reciprocity") [] (lit "negotiator") Yes 3 [].

(** The session after the scenario of the end-to-end example was
    generated. *)
Definition simulating_session : Session :=
  session_of (main (replies example_reply) (click GenerateScenario []) initial_session).

Definition anchor_move : pystr := lit "I open with an anchor offer.".

(** A reply with two delimiters, and one with a label that is not in
    front. *)
Definition two_delimiters : pystr :=
  lit "SCENARIO: Foo" ++ nl ++ DELIM ++ lit " Bar " ++ DELIM ++ lit " Baz".

Definition inner_label : pystr :=
  lit "Intro SCENARIO: Foo " ++ DELIM ++ lit " Bar".

(** The turns that a list of (move, reply) exchanges puts on the
    transcript. *)
Definition turns_of (exchanges : list (pystr * pystr)) : list Msg :=
  flat_map (fun x => [mkMsg (lit "user") (fst x); mkMsg (lit "assistant") (snd x)])
    exchanges.

(** A run is an accepted submit-move for the exchange [x]: the Submit Move
    button was clicked with the non-blank move of [x] in the text area, and
    the gateway answers with the reply of [x]. *)
Definition accepted (step : Gateway * Widgets) (x : pystr * pystr) : Prop :=
  clicked (snd step) = Some SubmitMove
  /\ user_input (snd step) = fst x
  /\ blank (fst x) = false
  /\ forall req, fst step req = Text (snd x).

(** A run that no button click caused: a re-render. *)
Definition rerender (step : Gateway * Widgets) : Prop := clicked (snd step) = None.

(** ** The guards at the top of the script (lines 16-25) *)

(** The values the script keeps under its five keys. *)
Inductive Value :=
| VNone
| VStr (text : pystr)
| VList (messages : list Msg)
| VBool (b : bool).

(** [st.session_state] as the guards see it: a key is absent or holds a
    value.  It is empty in the first run of a browser session and holds
    what the previous run left in every later one. *)
Definition SessionState := Key -> option Value.

Definition empty_state : SessionState := fun _ => None.

(** [st.session_state[k] = v] *)
Definition set_key (k : Key) (v : Value) (st : SessionState) : SessionState :=
  fun k' => if Key_eqb k' k then Some v else st k'.

(** [if k not in st.session_state: st.session_state[k] = v] *)
Definition ensure (k : Key) (v : Value) (st : SessionState) : SessionState :=
  match st k with
  | Some _ => st
  | None => set_key k v st
  end.

(** Lines 16-25, the five guards in order. *)
Definition ensure_session_keys (st : SessionState) : SessionState :=
  let st := ensure K_scenario_output VNone st in
  let st := ensure K_evaluation_rubric VNone st in
  let st := ensure K_simulation_messages (VList []) st in
  let st := ensure K_evaluation_feedback VNone st in
  ensure K_simulation_finished (VBool false) st.

Definition value_of_opt (o : option pystr) : Value :=
  match o with Some text => VStr text | None => VNone end.

(** The keys and values that a [Session] stands for. *)
Definition state_of_session (s : Session) : SessionState :=
  fun k =>
    Some match k with
         | K_scenario_output => value_of_opt (scenario_output s)
         | K_evaluation_rubric => value_of_opt (evaluation_rubric s)
         | K_simulation_messages => VList (simulation_messages s)
         | K_evaluation_feedback => value_of_opt (evaluation_feedback s)
         | K_simulation_finished => VBool (simulation_finished s)
         end.

Definition opt_of_value (v : Value) : option (option pystr) :=
  match v with
  | VNone => Some None
  | VStr text => Some (Some text)
  | _ => None
  end.

(** The [Session] that [main] works on, when the five keys are present with
    values of the kinds the script stores. *)
Definition session_of_state (st : SessionState) : option Session :=
  match st K_scenario_output, st K_evaluation_rubric, st K_simulation_messages,
        st K_evaluation_feedback, st K_simulation_finished with
  | Some so, Some er, Some (VList sm), Some ef, Some (VBool sf) =>
      match opt_of_value so, opt_of_value er, opt_of_value ef with
      | Some so', Some er', Some ef' => Some (mkSession so' er' sm ef' sf)
      | _, _, _ => None
      end
  | _, _, _, _, _ => None
  end.

(** ** Further notions used in the statements *)

(** The moves between controller states that one run can make. *)
Definition may_step (a b : State) : bool :=
  match a, b with
  | SETUP, SETUP | SETUP, SIMULATING => true
  | SIMULATING, SIMULATING
  | SIMULATING, FINISHED_evaluating | SIMULATING, FINISHED_evaluated => true
  | FINISHED_evaluating, FINISHED_evaluating
  | FINISHED_evaluating, FINISHED_evaluated | FINISHED_evaluating, SETUP => true
  | FINISHED_evaluated, FINISHED_evaluated | FINISHED_evaluated, SETUP => true
  | _, _ => false
  end.

(** A transcript in which every turn has role [user] or [assistant] and
    every [assistant] turn comes directly after a [user] turn;
    [after_user] tells whether the turn before the list is a [user] turn. *)
Fixpoint turns_ok (after_user : bool) (t : list Msg) : bool :=
  match t with
  | [] => true
  | m :: t' =>
      if str_eqb (role m) (lit "user") then turns_ok true t'
      else str_eqb (role m) (lit "assistant") && after_user && turns_ok false t'
  end.

Definition transcript_ok (t : list Msg) : bool := turns_ok false t.

(** The request that [call_scenario_designer] sends for the widget values
    [w]. *)
Definition designer_request (w : Widgets) : Request :=
  mkRequest (lit "o3-mini") (ReasoningEffort (lit "high"))
    (lit "You are a helpful scenario designer.")
    (scenario_designer_prompt (user_tactics w) (user_scenario w) (user_role w)
       (YesNo_str (user_make_up w)) (fmt_int (user_difficulty w)) INFLUENCE_DATA).

(** The request that [call_simulation_facilitator] sends. *)
Definition facilitator_request (scenario_text conversation_text : pystr) : Request :=
  mkRequest (lit "gpt-4o") (Temperature 7) (lit "You are the simulation facilitator.")
    (simulation_facilitator_prompt scenario_text conversation_text).

(** The request that [call_evaluator] sends. *)
Definition evaluator_request
    (scenario_text : option pystr) (conversation_text : pystr)
    (rubric_text : option pystr) : Request :=
  mkRequest (lit "gpt-4o") (Temperature 7) (lit "You are the evaluator.")
    (evaluator_prompt (fmt_opt scenario_text) conversation_text (fmt_opt rubric_text)).

(** The reply that the designer prompt asks for: the scenario under its
    label, then the rubric under the delimiter. *)
Definition formatted_reply (scenario rubric : pystr) : pystr :=
  LABEL ++ lit " " ++ scenario ++ nl ++ DELIM ++ nl ++ rubric.

(** ** Facts about the string operations *)

Lemma starts_with_iff (p s : pystr) :
  starts_with p s = true <-> exists r, s = p ++ r.
Proof.
  revert s; induction p as [|a p IH]; intros s; simpl.
  - split; [intros _; now exists s | reflexivity].
  - destruct s as [|b s].
    + split; [discriminate | intros [r Hr]; discriminate].
    + rewrite andb_true_iff, N.eqb_eq, IH. split.
      * intros [-> [r ->]]. now exists r.
      * intros [r Hr]. injection Hr as -> ->. split; [reflexivity | now exists r].
Qed.

Lemma starts_with_app (p r : pystr) : starts_with p (p ++ r) = true.
Proof. apply starts_with_iff. now exists r. Qed.

(** Only the first [length p] characters of [s] matter. *)
Lemma starts_with_long (p x y : pystr) :
  length p <= length x -> starts_with p (x ++ y) = starts_with p x.
Proof.
  revert x; induction p as [|a p IH]; intros x Hlen; [reflexivity|].
  destruct x as [|b x]; simpl in *; [lia|].
  rewrite IH by lia. reflexivity.
Qed.

(** [find] returns the position of an occurrence, and the first one. *)
Lemma find_Some (sub s : pystr) (i : nat) :
  find sub s = Some i ->
  s = firstn i s ++ sub ++ skipn (i + length sub) s
  /\ forall j, j < i -> starts_with sub (skipn j s) = false.
Proof.
  revert i; induction s as [|c s IH]; intros i; simpl.
  - destruct (starts_with sub []) eqn:E; [|discriminate].
    intros [= <-]. apply starts_with_iff in E as [r Hr].
    destruct sub; [|discriminate]. split; [reflexivity | intros; lia].
  - destruct (starts_with sub (c :: s)) eqn:E.
    + intros [= <-]. split; [|intros; lia].
      apply starts_with_iff in E as [r Hr]. simpl. rewrite Hr at 1.
      rewrite Hr, skipn_app, skipn_all, Nat.sub_diag. reflexivity.
    + destruct (find sub s) as [k|] eqn:F; [|discriminate].
      simpl. intros [= <-]. destruct (IH k eq_refl) as [Hs Hfirst]. split.
      * simpl. now rewrite <- Hs.
      * intros [|j] Hj; [exact E | simpl; apply Hfirst; lia].
Qed.

Lemma find_None (sub s : pystr) :
  find sub s = None <-> forall pre post, s <> pre ++ sub ++ post.
Proof.
  induction s as [|c s IH]; simpl.
  - destruct (starts_with sub []) eqn:E.
    + split; [discriminate|]. intros H. apply starts_with_iff in E as [r Hr].
      exfalso. apply (H [] r). exact Hr.
    + split; [|reflexivity]. intros _ pre post H.
      destruct pre; [|discriminate]. simpl in H.
      assert (starts_with sub [] = true) by (apply starts_with_iff; now exists post).
      congruence.
  - destruct (starts_with sub (c :: s)) eqn:E.
    + split; [discriminate|]. intros H. apply starts_with_iff in E as [r Hr].
      exfalso. apply (H [] r). exact Hr.
    + destruct (find sub s) as [k|] eqn:F; simpl.
      * split; [discriminate|]. intros H. exfalso.
        destruct (find_Some _ _ _ F) as [Hs _].
        apply (H (c :: firstn k s) (skipn (k + length sub) s)).
        simpl. now rewrite <- Hs.
      * split; [|reflexivity]. intros _ pre post H.
        destruct pre as [|c' pre]; simpl in H.
        -- assert (starts_with sub (c :: s) = true)
             by (apply starts_with_iff; now exists post).
           congruence.
        -- injection H as _ H. destruct IH as [IH _]. exact (IH eq_refl pre post H).
Qed.

Lemma find_bound (sub s : pystr) (i : nat) :
  find sub s = Some i -> i + length sub <= length s.
Proof.
  revert i; induction s as [|c s IH]; intros i; simpl.
  - destruct (starts_with sub []) eqn:E; [|discriminate].
    intros [= <-]. destruct sub; [simpl; lia | discriminate].
  - destruct (starts_with sub (c :: s)) eqn:E.
    + intros [= <-]. apply starts_with_iff in E as [r Hr].
      change (length (c :: s)) with (S (length s)) in *.
      assert (L : length (c :: s) = length (sub ++ r)) by now rewrite Hr.
      rewrite length_app in L. simpl in L. lia.
    + destruct (find sub s) as [k|]; [|discriminate].
      simpl. intros [= <-]. specialize (IH k eq_refl). lia.
Qed.

Section Fuel.

Variable sep : pystr.
Hypothesis sep_nonempty : sep <> [].

Lemma cut_shorter (s : pystr) (i : nat) :
  find sep s = Some i -> length (skipn (i + length sep) s) < length s.
Proof.
  intros F. apply find_bound in F. rewrite length_skipn.
  destruct sep; [congruence | simpl in *; lia].
Qed.

(** With more rounds than characters the result of [split_fuel] no longer
    depends on the number of rounds: the recursion has ended by itself. *)
Lemma split_fuel_enough (f1 f2 : nat) (s : pystr) :
  length s < f1 -> length s < f2 -> split_fuel f1 sep s = split_fuel f2 sep s.
Proof.
  revert f2 s; induction f1 as [|f1 IH]; intros f2 s H1 H2; [lia|].
  destruct f2 as [|f2]; [lia|]. simpl.
  destruct (find sep s) as [i|] eqn:F; [|reflexivity].
  f_equal. pose proof (cut_shorter _ _ F). apply IH; lia.
Qed.

Lemma replace_fuel_enough (new : pystr) (f1 f2 : nat) (s : pystr) :
  length s < f1 -> length s < f2 ->
  replace_fuel f1 sep new s = replace_fuel f2 sep new s.
Proof.
  revert f2 s; induction f1 as [|f1 IH]; intros f2 s H1 H2; [lia|].
  destruct f2 as [|f2]; [lia|]. simpl.
  destruct (find sep s) as [i|] eqn:F; [|reflexivity].
  do 2 f_equal. pose proof (cut_shorter _ _ F). apply IH; lia.
Qed.

(** The unfolding equations of [split] and [replace]. *)
Lemma py_split_eq (s : pystr) :
  py_split sep s =
  match find sep s with
  | None => [s]
  | Some i => firstn i s :: py_split sep (skipn (i + length sep) s)
  end.
Proof.
  unfold py_split at 1. simpl.
  destruct (find sep s) as [i|] eqn:F; [|reflexivity].
  f_equal. pose proof (cut_shorter _ _ F). apply split_fuel_enough; lia.
Qed.

Lemma py_replace_eq (new s : pystr) :
  py_replace sep new s =
  match find sep s with
  | None => s
  | Some i => firstn i s ++ new ++ py_replace sep new (skipn (i + length sep) s)
  end.
Proof.
  unfold py_replace at 1. simpl.
  destruct (find sep s) as [i|] eqn:F; [|reflexivity].
  do 2 f_equal. pose proof (cut_shorter _ _ F). apply replace_fuel_enough; lia.
Qed.

(** Where the parser reads [parts[1]] the list has two items at least. *)
Lemma py_split_two (s : pystr) :
  py_in sep s = true -> 2 <= length (py_split sep s).
Proof.
  unfold py_in. rewrite py_split_eq.
  destruct (find sep s) as [i|]; [intros _|discriminate].
  rewrite py_split_eq.
  destruct (find sep (skipn (i + length sep) s)); simpl; lia.
Qed.

End Fuel.

Lemma find_here (sub s : pystr) : starts_with sub s = true -> find sub s = Some 0.
Proof. intros H. destruct s; simpl; now rewrite H. Qed.

Section Unbordered.

Variable d : pystr.
Hypothesis d_last_unique : last_unique d = true.

Lemma last_unique_shape :
  exists d0 z, d = d0 ++ [z] /\ ~ In z d0.
Proof.
  unfold last_unique in d_last_unique.
  destruct (rev d) as [|z r] eqn:R; [discriminate|].
  exists (rev r), z. split.
  - rewrite <- (rev_involutive d), R. reflexivity.
  - intros Hin. apply in_rev in Hin.
    apply negb_true_iff in d_last_unique.
    assert (existsb (N.eqb z) r = true)
      by (apply existsb_exists; exists z; split; [exact Hin | apply N.eqb_refl]).
    congruence.
Qed.

Lemma last_unique_nonempty : d <> [].
Proof. destruct last_unique_shape as (d0 & z & -> & _). now destruct d0. Qed.

(** No occurrence of [d] starts inside [x] and runs into the copy of [d]
    that follows [x]. *)
Lemma starts_with_before (x post : pystr) :
  x <> [] -> starts_with d (x ++ d ++ post) = true -> starts_with d x = true.
Proof.
  intros Hx H.
  destruct (le_lt_dec (length d) (length x)) as [Hle|Hlt].
  - now rewrite starts_with_long in H.
  - exfalso. destruct last_unique_shape as (d0 & z & Hd & Hz).
    apply starts_with_iff in H as [r Hr].
    assert (Hn : nth_error (x ++ d ++ post) (length d0) = nth_error (d ++ r) (length d0))
      by now rewrite Hr.
    assert (Ld : length d = S (length d0))
      by (rewrite Hd, length_app; simpl; lia).
    assert (Lx : 0 < length x) by (destruct x; [congruence | simpl; lia]).
    rewrite (nth_error_app2 x) in Hn by lia.
    rewrite (nth_error_app1 d post), (nth_error_app1 d r) in Hn by lia.
    rewrite Hd in Hn.
    rewrite (nth_error_app1 d0 [z]) in Hn by lia.
    rewrite (nth_error_app2 d0 [z]), Nat.sub_diag in Hn by lia.
    simpl in Hn. apply nth_error_In in Hn. contradiction.
Qed.

Lemma find_first (pre post : pystr) :
  find d pre = None -> find d (pre ++ d ++ post) = Some (length pre).
Proof.
  induction pre as [|c pre IH]; simpl.
  - intros _. apply find_here, starts_with_app.
  - destruct (starts_with d (c :: pre)) eqn:E; [discriminate|].
    destruct (find d pre) as [k|] eqn:F; [discriminate|]. intros _.
    destruct (starts_with d (c :: pre ++ d ++ post)) eqn:E'.
    + apply (starts_with_before (c :: pre) post) in E'; congruence.
    + now rewrite (IH eq_refl).
Qed.

End Unbordered.

Lemma py_in_false (sub s : pystr) : py_in sub s = false <-> find sub s = None.
Proof. unfold py_in. destruct (find sub s); split; congruence. Qed.

Lemma py_in_true (sub s : pystr) :
  py_in sub s = true <-> exists pre post, s = pre ++ sub ++ post.
Proof.
  unfold py_in. destruct (find sub s) as [i|] eqn:F.
  - split; [intros _|reflexivity].
    destruct (find_Some _ _ _ F) as [Hs _]. eauto.
  - split; [discriminate|]. intros (pre & post & Hs).
    exfalso. exact (proj1 (find_None sub s) F pre post Hs).
Qed.

Lemma py_replace_absent (old new s : pystr) :
  find old s = None -> py_replace old new s = s.
Proof. intros F. unfold py_replace. simpl. now rewrite F. Qed.

Lemma py_split_absent (sep s : pystr) :
  find sep s = None -> py_split sep s = [s].
Proof. intros F. unfold py_split. simpl. now rewrite F. Qed.

(** ** Facts about [strip] *)

Lemma lstrip_nil_iff (s : pystr) : lstrip s = [] <-> blank s = true.
Proof.
  induction s as [|c s IH]; simpl; [tauto|].
  destruct (py_isspace c); simpl; [exact IH | split; discriminate].
Qed.

Lemma lstrip_head (s : pystr) (c : char) (r : pystr) :
  lstrip s = c :: r -> py_isspace c = false.
Proof.
  induction s as [|a s IH]; simpl; [discriminate|].
  destruct (py_isspace a) eqn:E; [exact IH | congruence].
Qed.

Lemma blank_rev (s : pystr) : blank (rev s) = blank s.
Proof.
  unfold blank. induction s as [|c s IH]; [reflexivity|].
  simpl. rewrite forallb_app, IH. simpl. rewrite andb_true_r. apply andb_comm.
Qed.

(** A string strips to nothing exactly when it is made of whitespace. *)
Lemma strip_nil_iff (s : pystr) : strip s = [] <-> blank s = true.
Proof.
  unfold strip, rstrip. split.
  - intros H. apply (f_equal (@rev char)) in H. rewrite rev_involutive in H.
    simpl in H. apply lstrip_nil_iff in H. rewrite blank_rev in H.
    destruct (lstrip s) as [|c r] eqn:L; [now apply lstrip_nil_iff|].
    apply lstrip_head in L. simpl in H. rewrite L in H. discriminate.
  - intros H. apply lstrip_nil_iff in H. now rewrite H.
Qed.

Lemma is_empty_strip (s : pystr) : is_empty (strip s) = blank s.
Proof.
  destruct (blank s) eqn:B.
  - apply strip_nil_iff in B. now rewrite B.
  - destruct (strip s) eqn:E; [|reflexivity].
    apply strip_nil_iff in E. congruence.
Qed.

(** ** The parser *)

Lemma DELIM_last_unique : last_unique DELIM = true.
Proof. reflexivity. Qed.

Lemma LABEL_last_unique : last_unique LABEL = true.
Proof. reflexivity. Qed.

Lemma skipn_past (A : Type) (pre d post : list A) :
  skipn (length pre + length d) (pre ++ d ++ post) = post.
Proof.
  rewrite skipn_app, skipn_all2 by lia.
  replace (length pre + length d - length pre) with (length d) by lia.
  now rewrite skipn_app, skipn_all, Nat.sub_diag.
Qed.

Lemma firstn_before (A : Type) (pre rest : list A) :
  firstn (length pre) (pre ++ rest) = pre.
Proof. now rewrite firstn_app, firstn_all, Nat.sub_diag, firstn_O, app_nil_r. Qed.

Lemma py_split_first (pre post : pystr) :
  find DELIM pre = None ->
  py_split DELIM (pre ++ DELIM ++ post) = pre :: py_split DELIM post.
Proof.
  intros Hpre.
  rewrite (py_split_eq DELIM (last_unique_nonempty DELIM DELIM_last_unique)).
  rewrite (find_first DELIM DELIM_last_unique pre post Hpre).
  now rewrite firstn_before, skipn_past.
Qed.

(** With the first delimiter after [pre], the parser keeps [pre] without
    its labels and [post] up to the next delimiter. *)
Lemma parse_reply_first (pre post : pystr) :
  py_in DELIM pre = false ->
  parse_reply (pre ++ DELIM ++ post) =
  (strip (py_replace LABEL [] pre),
   strip (match find DELIM post with Some j => firstn j post | None => post end)).
Proof.
  intros Hpre. apply py_in_false in Hpre.
  unfold parse_reply, py_in.
  rewrite (find_first DELIM DELIM_last_unique pre post Hpre).
  rewrite (py_split_first pre post Hpre).
  rewrite (py_split_eq DELIM (last_unique_nonempty DELIM DELIM_last_unique) post).
  unfold item. destruct (find DELIM post); reflexivity.
Qed.

(** A label in front of a text that has no other label is taken away. *)
Lemma py_replace_leading_label (body : pystr) :
  py_in LABEL body = false -> py_replace LABEL [] (LABEL ++ body) = body.
Proof.
  intros H. apply py_in_false in H.
  rewrite (py_replace_eq LABEL (last_unique_nonempty LABEL LABEL_last_unique)).
  rewrite (find_here LABEL (LABEL ++ body)) by apply starts_with_app.
  change (0 + length LABEL) with (length LABEL).
  rewrite skipn_app, skipn_all, Nat.sub_diag.
  change (firstn 0 (LABEL ++ body) ++ [] ++ py_replace LABEL [] (skipn 0 [] ++ body))
    with (py_replace LABEL [] body).
  now apply py_replace_absent.
Qed.

(** ** Running the script *)

(** Unfolds one run of the script down to its session, events and result. *)
Ltac run_script :=
  cbv beta iota zeta delta
    [main block_A block_B block_C submit_move finish evaluate restart
     call_scenario_designer call_simulation_facilitator call_evaluator create
     bind ret raise emit read
     store_scenario_output store_evaluation_rubric store_simulation_messages
     store_evaluation_feedback store_simulation_finished append_message
     scenario_output evaluation_rubric simulation_messages evaluation_feedback
     simulation_finished
     button clicked user_input user_tactics user_scenario user_role user_make_up
     user_difficulty
     is_None Button_eqb negb session_of events_of result_of raised fst snd];
  cbn [app].

(** Splits on the next thing a run depends on: the reply of the gateway, the
    emptiness test of the move, or the two parts the parser returns. *)
Ltac split_run :=
  match goal with
  | |- context [match ?complete ?req with Text _ => _ | Fails _ => _ end] =>
      destruct (complete req) eqn:?
  | |- context [if is_empty ?x then _ else _] => destruct (is_empty x) eqn:?
  | |- context [parse_reply ?t] => destruct (parse_reply t) eqn:?
  end.

Ltac run_cases := run_script; repeat (split_run; run_script).

Lemma consistent_initial : consistent initial_session = true.
Proof. reflexivity. Qed.

Lemma snoc_not_nil (A : Type) (l : list A) (a : A) :
  match l ++ [a] with [] => true | _ :: _ => false end = false.
Proof. now destruct l. Qed.

(** Every run keeps the invariants, also a run that an exception stops. *)
Lemma consistent_main complete w s :
  consistent s = true -> consistent (session_of (main complete w s)) = true.
Proof.
  destruct s as [[so|] [er|] sm [ef|] [|]], w as [[[]|] ut us ur um ud ui];
    unfold consistent; cbn [scenario_output evaluation_rubric simulation_messages
      evaluation_feedback simulation_finished is_None Bool.eqb implb negb andb];
    try discriminate; intros H; run_cases;
    cbn [scenario_output evaluation_rubric simulation_messages
      evaluation_feedback simulation_finished is_None Bool.eqb implb negb andb];
    rewrite ?snoc_not_nil; try reflexivity; try exact H;
    destruct sm; try discriminate H; reflexivity.
Qed.

Lemma reachable_consistent s : reachable s -> consistent s = true.
Proof.
  induction 1 as [|complete w s _ IH]; [reflexivity | now apply consistent_main].
Qed.

(** ** The scenario parser (C1) *)

Example parse_reply_no_delim :
  parse_reply (lit "Just a scenario.") = (lit "Just a scenario.", NO_RUBRIC).
Proof. vm_compute. reflexivity. Qed.

(** C1, as stated, fails: with two delimiters the rubric is cut at the
    second one instead of being the whole text after the delimiter, and a
    [SCENARIO:] label that is not in front is removed as well. *)
Lemma parse_reply_not_as_specified :
  py_in DELIM two_delimiters = true
  /\ parse_reply two_delimiters = (lit "Foo", lit "Bar")
  /\ spec_parse_reply two_delimiters = (lit "Foo", lit "Bar EVALUATION_RUBRIC: Baz")
  /\ py_in DELIM inner_label = true
  /\ parse_reply inner_label = (lit "Intro  Foo", lit "Bar")
  /\ spec_parse_reply inner_label = (lit "Intro SCENARIO: Foo", lit "Bar")
  /\ parse_reply two_delimiters <> spec_parse_reply two_delimiters
  /\ parse_reply inner_label <> spec_parse_reply inner_label.
Proof. repeat split; try (vm_compute; reflexivity); vm_compute; discriminate. Qed.

(** C1, amended: when the delimiter [EVALUATION_RUBRIC:] occurs exactly once,
    after [pre] and before [post], the parser returns [pre] with every
    occurrence of [SCENARIO:] removed, trimmed, and [post], trimmed; when
    the delimiter is absent it returns the whole trimmed reply and the
    sentinel [No rubric found.]; and the reply
    [SCENARIO: Foo\nEVALUATION_RUBRIC:\nBar] yields [Foo] and [Bar]. *)
Theorem parse_reply_single_delimiter (pre post text : pystr) :
  (py_in DELIM pre = false -> py_in DELIM post = false ->
   parse_reply (pre ++ DELIM ++ post) = (strip (py_replace LABEL [] pre), strip post))
  /\ (py_in DELIM text = false -> parse_reply text = (strip text, NO_RUBRIC))
  /\ parse_reply (lit "SCENARIO: Foo" ++ nl ++ lit "EVALUATION_RUBRIC:" ++ nl ++ lit "Bar")
     = (lit "Foo", lit "Bar").
Proof.
  split; [|split].
  - intros Hpre Hpost. rewrite parse_reply_first by exact Hpre.
    apply py_in_false in Hpost. now rewrite Hpost.
  - intros H. unfold parse_reply. now rewrite H.
  - vm_compute. reflexivity.
Qed.

Lemma parse_reply_single_delimiter_witness :
  parse_reply (lit "SCENARIO: A negotiation." ++ nl ++ DELIM ++ nl ++ lit "Score clarity 1-5.")
  = (lit "A negotiation.", lit "Score clarity 1-5.")
  /\ parse_reply (lit "Just a scenario.") = (lit "Just a scenario.", NO_RUBRIC).
Proof.
  split.
  - exact (proj1 (parse_reply_single_delimiter
                    (lit "SCENARIO: A negotiation." ++ nl) (nl ++ lit "Score clarity 1-5.") [])
             eq_refl eq_refl).
  - exact (proj1 (proj2 (parse_reply_single_delimiter [] [] (lit "Just a scenario.")))
             eq_refl).
Defined.

(** ** Failing gateway calls (C2) *)

Lemma simulating_session_reachable : reachable simulating_session.
Proof. apply reachable_run, reachable_initial. Qed.

(** C2, as stated, fails: a submit-move whose facilitator call times out
    leaves the USER turn in the transcript. *)
Lemma failed_move_keeps_user_turn :
  reachable simulating_session
  /\ simulation_messages simulating_session = []
  /\ result_of (main times_out (click SubmitMove anchor_move) simulating_session)
     = Raised TIMEOUT
  /\ simulation_messages
       (session_of (main times_out (click SubmitMove anchor_move) simulating_session))
     = [mkMsg (lit "user") anchor_move]
  /\ session_of (main times_out (click SubmitMove anchor_move) simulating_session)
     <> simulating_session.
Proof.
  split; [exact simulating_session_reachable|].
  repeat split; try (vm_compute; reflexivity). vm_compute. discriminate.
Qed.

(** C2, amended: when the gateway call of a run fails, scenario_text,
    rubric_text and feedback_text are what they were before the event, and
    a session without a scenario is left unchanged as a whole, so that both
    stay null after a failed design call; the transcript is what it was,
    except that a failed submit-move leaves its USER turn appended; finished
    is what it was, except that a finish event whose evaluation call fails
    leaves it true. *)
Theorem failed_run_effect (complete : Gateway) (w : Widgets) (s : Session) :
  consistent s = true ->
  raised (result_of (main complete w s)) = true ->
  scenario_output (session_of (main complete w s)) = scenario_output s
  /\ evaluation_rubric (session_of (main complete w s)) = evaluation_rubric s
  /\ evaluation_feedback (session_of (main complete w s)) = evaluation_feedback s
  /\ simulation_messages (session_of (main complete w s))
     = match state_of s, clicked w with
       | SIMULATING, Some SubmitMove =>
           simulation_messages s ++ [mkMsg (lit "user") (user_input w)]
       | _, _ => simulation_messages s
       end
  /\ simulation_finished (session_of (main complete w s))
     = match state_of s, clicked w with
       | SIMULATING, Some FinishEvaluate => true
       | _, _ => simulation_finished s
       end
  /\ (scenario_output s = None -> session_of (main complete w s) = s).
Proof.
  destruct s as [[so|] [er|] sm [ef|] [|]], w as [[[]|] ut us ur um ud ui];
    unfold consistent, state_of;
    cbn [scenario_output evaluation_rubric simulation_messages evaluation_feedback
         simulation_finished is_None Bool.eqb implb negb andb clicked user_input];
    rewrite ?andb_false_r; try discriminate; intros _; run_cases;
    try discriminate; intros _;
    repeat split; try reflexivity; intros H; discriminate H.
Qed.

Lemma failed_run_effect_witness :
  simulation_messages
    (session_of (main times_out (click SubmitMove anchor_move) simulating_session))
  = simulation_messages simulating_session ++ [mkMsg (lit "user") anchor_move].
Proof.
  exact (proj1 (proj2 (proj2 (proj2
    (failed_run_effect times_out (click SubmitMove anchor_move) simulating_session
       eq_refl eq_refl))))).
Defined.

(** ** The transcript under accepted moves (C3, C9) *)

Lemma length_turns_of exchanges : length (turns_of exchanges) = 2 * length exchanges.
Proof. induction exchanges as [|x xs IH]; simpl in *; lia. Qed.

Lemma runs_cons_session complete w steps s :
  fst (runs ((complete, w) :: steps) s) = fst (runs steps (session_of (main complete w s))).
Proof. simpl. now destruct (runs steps (session_of (main complete w s))). Qed.

Lemma runs_cons_events complete w steps s :
  snd (runs ((complete, w) :: steps) s)
  = events_of (main complete w s) ++ snd (runs steps (session_of (main complete w s))).
Proof. simpl. now destruct (runs steps (session_of (main complete w s))). Qed.

(** One accepted move with a successful reply. *)
Lemma main_accepted_move complete w s sc reply :
  scenario_output s = Some sc -> simulation_finished s = false ->
  clicked w = Some SubmitMove -> blank (user_input w) = false ->
  (forall req, complete req = Text reply) ->
  session_of (main complete w s)
  = mkSession (Some sc) (evaluation_rubric s)
      (simulation_messages s
       ++ [mkMsg (lit "user") (user_input w); mkMsg (lit "assistant") reply])
      (evaluation_feedback s) false.
Proof.
  destruct s as [so er sm ef sf], w as [c ut us ur um ud ui]. simpl.
  intros -> -> -> B Hc. run_script. rewrite is_empty_strip, B, Hc. run_script.
  now rewrite <- app_assoc.
Qed.

(** While the session is not finished a run only adds to the transcript. *)
Lemma main_appends complete w s :
  simulation_finished s = false ->
  exists added,
    simulation_messages (session_of (main complete w s)) = simulation_messages s ++ added.
Proof.
  destruct s as [[so|] er sm [ef|] sf], w as [[[]|] ut us ur um ud ui]; simpl;
    intros ->; run_cases;
    try (exists []; now rewrite app_nil_r);
    try (eexists; reflexivity);
    rewrite <- app_assoc; eexists; reflexivity.
Qed.

(** Block (B) only adds to the transcript, in any session. *)
Lemma block_B_appends complete w s :
  exists added,
    simulation_messages (session_of (block_B complete w s)) = simulation_messages s ++ added.
Proof.
  destruct s as [[so|] er sm [ef|] [|]], w as [[[]|] ut us ur um ud ui]; run_cases;
    try (exists []; now rewrite app_nil_r);
    try (eexists; reflexivity);
    rewrite <- app_assoc; eexists; reflexivity.
Qed.

(** C3: after N accepted submit-move runs with successful replies the
    transcript is the old one followed, in submission order, by one USER
    turn and one FACILITATOR turn per move, so its length grew by 2N (it is
    2N from the empty transcript); and neither a run of an unfinished
    session nor block (B) removes or reorders turns: the old transcript stays
    a prefix. *)
Theorem transcript_after_moves
    (steps : list (Gateway * Widgets)) (exchanges : list (pystr * pystr))
    (s : Session) (sc : pystr) :
  scenario_output s = Some sc ->
  simulation_finished s = false ->
  Forall2 accepted steps exchanges ->
  simulation_messages (fst (runs steps s)) = simulation_messages s ++ turns_of exchanges
  /\ length (simulation_messages (fst (runs steps s)))
     = length (simulation_messages s) + 2 * length steps
  /\ (simulation_messages s = [] ->
      length (simulation_messages (fst (runs steps s))) = 2 * length steps)
  /\ (forall complete w s0,
        simulation_finished s0 = false ->
        exists added,
          simulation_messages (session_of (main complete w s0))
          = simulation_messages s0 ++ added)
  /\ (forall complete w s0,
        exists added,
          simulation_messages (session_of (block_B complete w s0))
          = simulation_messages s0 ++ added).
Proof.
  intros Hsc Hfin Hacc.
  assert (Hmsgs : simulation_messages (fst (runs steps s))
                  = simulation_messages s ++ turns_of exchanges).
  { revert s Hsc Hfin. induction Hacc as [|[complete w] [move reply] steps xs Hx _ IH];
      intros s Hsc Hfin.
    - simpl. now rewrite app_nil_r.
    - destruct Hx as (Hclick & Hmove & Hblank & Hreply).
      cbn [fst snd] in Hclick, Hmove, Hblank, Hreply.
      rewrite <- Hmove in Hblank.
      pose proof (main_accepted_move complete w s sc reply Hsc Hfin Hclick Hblank Hreply)
        as Hrun.
      rewrite runs_cons_session, IH; rewrite Hrun; try reflexivity.
      cbn [simulation_messages turns_of flat_map fst snd].
      rewrite Hmove, <- app_assoc. reflexivity. }
  assert (Hlen : length steps = length exchanges).
  { clear Hmsgs. induction Hacc; simpl; congruence. }
  split; [exact Hmsgs|]. split; [|split; [|split]].
  - rewrite Hmsgs, length_app, length_turns_of. lia.
  - intros Hnil. rewrite Hmsgs, Hnil. cbn [app]. rewrite length_turns_of. lia.
  - intros complete w s0. apply main_appends.
  - intros complete w s0. apply block_B_appends.
Qed.

Lemma transcript_after_moves_witness :
  simulation_messages
    (fst (runs [(replies (lit "What will you do next?"), click SubmitMove anchor_move);
                (replies (lit "And then?"), click SubmitMove (lit " I wait. "))]
            simulating_session))
  = [mkMsg (lit "user") anchor_move; mkMsg (lit "assistant") (lit "What will you do next?");
     mkMsg (lit "user") (lit " I wait. "); mkMsg (lit "assistant") (lit "And then?")].
Proof.
  refine (proj1 (transcript_after_moves
    [(replies (lit "What will you do next?"), click SubmitMove anchor_move);
     (replies (lit "And then?"), click SubmitMove (lit " I wait. "))]
    [(anchor_move, lit "What will you do next?"); (lit " I wait. ", lit "And then?")]
    simulating_session (lit "A negotiation.") _ _ _)).
  - vm_compute. reflexivity.
  - vm_compute. reflexivity.
  - repeat constructor.
Defined.

(** C9: an accepted move is stored as the content of the USER turn exactly
    as it was submitted; stripping is applied only in the blank test.  The
    turn is followed by the FACILITATOR turn when the gateway replies. *)
Theorem move_stored_verbatim
    (complete : Gateway) (w : Widgets) (s : Session) (sc : pystr) :
  scenario_output s = Some sc ->
  simulation_finished s = false ->
  clicked w = Some SubmitMove ->
  is_empty (strip (user_input w)) = false ->
  simulation_messages (session_of (main complete w s))
  = simulation_messages s
    ++ mkMsg (lit "user") (user_input w)
       :: match complete
                  (mkRequest (lit "gpt-4o") (Temperature 7)
                     (lit "You are the simulation facilitator.")
                     (simulation_facilitator_prompt sc
                        (conversation_text_move
                           (simulation_messages s ++ [mkMsg (lit "user") (user_input w)]))))
          with
          | Text reply => [mkMsg (lit "assistant") reply]
          | Fails _ => []
          end.
Proof.
  destruct s as [so er sm ef sf], w as [c ut us ur um ud ui]. simpl.
  intros -> -> -> B. run_script. rewrite B. run_cases; rewrite <- ?app_assoc; reflexivity.
Qed.

Lemma move_stored_verbatim_witness :
  simulation_messages
    (session_of (main (replies (lit "What next?")) (click SubmitMove (lit "  I wait.  "))
                   simulating_session))
  = [mkMsg (lit "user") (lit "  I wait.  "); mkMsg (lit "assistant") (lit "What next?")].
Proof.
  exact (move_stored_verbatim (replies (lit "What next?")) (click SubmitMove (lit "  I wait.  "))
           simulating_session (lit "A negotiation.") eq_refl eq_refl eq_refl eq_refl).
Defined.

(** ** Blank moves (C4) *)

(** C4: a move that is empty or made of whitespace only is answered with
    the warning [Please enter a move.] and nothing else: the run makes no
    gateway call and leaves the whole session, transcript included, as it
    was. *)
Theorem blank_move_rejected
    (complete : Gateway) (w : Widgets) (s : Session) (sc : pystr) :
  scenario_output s = Some sc ->
  simulation_finished s = false ->
  clicked w = Some SubmitMove ->
  blank (user_input w) = true ->
  main complete w s = (s, [EvWarning (lit "Please enter a move.")], Done tt).
Proof.
  destruct s as [so er sm ef sf], w as [c ut us ur um ud ui]. simpl.
  intros -> -> -> B. run_script. rewrite is_empty_strip, B. reflexivity.
Qed.

Lemma blank_move_rejected_witness :
  main times_out (click SubmitMove []) simulating_session
  = (simulating_session, [EvWarning (lit "Please enter a move.")], Done tt)
  /\ main times_out (click SubmitMove (lit "   ")) simulating_session
     = (simulating_session, [EvWarning (lit "Please enter a move.")], Done tt).
Proof.
  split.
  - exact (blank_move_rejected times_out (click SubmitMove []) simulating_session
             (lit "A negotiation.") eq_refl eq_refl eq_refl eq_refl).
  - exact (blank_move_rejected times_out (click SubmitMove (lit "   ")) simulating_session
             (lit "A negotiation.") eq_refl eq_refl eq_refl eq_refl).
Defined.

(** ** The evaluation guard *)

(** With feedback present, a re-render of a finished session does nothing. *)
Lemma main_evaluated_rerender complete w s f :
  simulation_finished s = true -> evaluation_feedback s = Some f -> clicked w = None ->
  main complete w s = (s, [], Done tt).
Proof.
  destruct s as [[so|] er sm ef sf], w as [c ut us ur um ud ui]. all: simpl.
  all: intros -> -> ->; run_script; reflexivity.
Qed.

Lemma runs_evaluated_rerender steps s f :
  simulation_finished s = true -> evaluation_feedback s = Some f ->
  Forall rerender steps -> runs steps s = (s, []).
Proof.
  intros Hfin Hfb Hre. induction Hre as [|[complete w] steps Hx _ IH]; [reflexivity|].
  simpl. rewrite (main_evaluated_rerender complete w s f Hfin Hfb Hx).
  unfold session_of, events_of. simpl. now rewrite IH.
Qed.

(** ** Restart (C6) *)

(** C6, as stated, fails: in the SIMULATING state a run that carries the
    restart event changes nothing, the session keeps its scenario and
    rubric. *)
Lemma no_restart_while_simulating :
  state_of simulating_session = SIMULATING
  /\ main times_out (click RestartEverything []) simulating_session
     = (simulating_session, [], Done tt)
  /\ simulating_session <> initial_session.
Proof. repeat split; try (vm_compute; reflexivity). vm_compute. discriminate. Qed.

(** C6, amended: the restart is offered in the FINISHED states only.  There
    a run with the restart click that no failing gateway call stops leaves
    every session field at its initial value (scenario_text, rubric_text and
    feedback_text null, transcript empty, finished false, hence state SETUP),
    and no call can fail once feedback_text is set; a run of an unfinished
    session with a scenario keeps the scenario, whatever the click. *)
Theorem restart_when_finished (complete : Gateway) (w : Widgets) (s : Session) :
  (simulation_finished s = true ->
   clicked w = Some RestartEverything ->
   raised (result_of (main complete w s)) = false ->
   session_of (main complete w s) = initial_session
   /\ state_of (session_of (main complete w s)) = SETUP)
  /\ (simulation_finished s = true ->
      evaluation_feedback s <> None ->
      clicked w = Some RestartEverything ->
      raised (result_of (main complete w s)) = false)
  /\ (simulation_finished s = false ->
      scenario_output s <> None ->
      scenario_output (session_of (main complete w s)) = scenario_output s).
Proof.
  destruct s as [[so|] er sm [ef|] [|]], w as [[[]|] ut us ur um ud ui];
    cbn [simulation_finished evaluation_feedback clicked scenario_output];
    (split; [|split]); intros; try discriminate; try congruence;
    generalize dependent complete; intros complete; run_cases; intros;
    try discriminate; try congruence; try (split; reflexivity); reflexivity.
Qed.

Lemma restart_when_finished_witness :
  session_of
    (main times_out (click RestartEverything [])
       (mkSession (Some (lit "A negotiation.")) (Some (lit "Score clarity 1-5."))
          [mkMsg (lit "user") anchor_move; mkMsg (lit "assistant") (lit "What next?")]
          (Some (lit "Feedback.")) true))
  = initial_session.
Proof.
  exact (proj1 (proj1 (restart_when_finished times_out (click RestartEverything [])
    (mkSession (Some (lit "A negotiation.")) (Some (lit "Score clarity 1-5."))
       [mkMsg (lit "user") anchor_move; mkMsg (lit "assistant") (lit "What next?")]
       (Some (lit "Feedback.")) true)) eq_refl eq_refl eq_refl)).
Defined.

(** ** Scenario and rubric are set together (C7) *)

(** C7: in every session that runs of the script can reach from the fresh
    one, also through runs stopped by a failing gateway call, rubric_text
    is set if and only if scenario_text is set. *)
Theorem scenario_rubric_paired (s : Session) :
  reachable s -> (evaluation_rubric s <> None <-> scenario_output s <> None).
Proof.
  intros R. apply reachable_consistent in R. unfold consistent in R.
  destruct (evaluation_rubric s), (scenario_output s); simpl in R;
    try discriminate; split; congruence.
Qed.

Lemma scenario_rubric_paired_witness :
  evaluation_rubric simulating_session <> None <-> scenario_output simulating_session <> None.
Proof.
  exact (scenario_rubric_paired simulating_session
           (reachable_run (replies example_reply) (click GenerateScenario [])
              initial_session reachable_initial)).
Defined.

(** ** The conversation text (C8) *)

Lemma fold_add_message (t : list Msg) (acc : pystr) :
  fold_left add_message t acc = acc ++ render_transcript t.
Proof.
  revert acc; induction t as [|m t IH]; intros acc; simpl.
  - now rewrite app_nil_r.
  - rewrite IH. unfold add_message, render_turn, role_label_of.
    now rewrite <- app_assoc.
Qed.

(** C8: for every transcript the evaluation block and the move handler build
    the same conversation text, namely every turn in order rendered as its
    role label (USER for role user, FACILITATOR otherwise), a colon and a
    space, its content and a newline. *)
Theorem conversation_text_same (t : list Msg) :
  conversation_text_eval t = conversation_text_move t
  /\ conversation_text_move t = render_transcript t
  /\ (forall m, render_turn m = lit "USER" ++ lit ": " ++ content m ++ nl
                \/ render_turn m = lit "FACILITATOR" ++ lit ": " ++ content m ++ nl).
Proof.
  split; [reflexivity|]. split.
  - unfold conversation_text_move. now rewrite fold_add_message.
  - intros m. unfold render_turn, role_label_of.
    destruct (str_eqb (role m) (lit "user")); [left | right]; reflexivity.
Qed.

(** ** Finishing with an empty transcript (C10) *)

(** C10: with no move submitted, the finish click is accepted: block (B)
    sets finished to true and makes no gateway call, finished is true after
    the run whatever the gateway does, and the evaluation that follows makes
    one call, to the evaluator, whose prompt has the empty string as
    conversation text. *)
Theorem finish_with_empty_transcript
    (complete : Gateway) (w : Widgets) (s : Session) (sc : pystr) :
  scenario_output s = Some sc ->
  simulation_finished s = false ->
  simulation_messages s = [] ->
  evaluation_feedback s = None ->
  clicked w = Some FinishEvaluate ->
  calls (events_of (block_B complete w s)) = []
  /\ result_of (block_B complete w s) = Done tt
  /\ simulation_finished (session_of (block_B complete w s)) = true
  /\ simulation_finished (session_of (main complete w s)) = true
  /\ calls (events_of (main complete w s))
     = [mkRequest (lit "gpt-4o") (Temperature 7) (lit "You are the evaluator.")
          (evaluator_prompt sc [] (fmt_opt (evaluation_rubric s)))].
Proof.
  destruct s as [so er sm ef sf], w as [c ut us ur um ud ui]. simpl.
  intros -> -> -> -> ->. repeat split; run_cases; reflexivity.
Qed.

Lemma finish_with_empty_transcript_witness :
  calls (events_of (main times_out (click FinishEvaluate []) simulating_session))
  = [mkRequest (lit "gpt-4o") (Temperature 7) (lit "You are the evaluator.")
       (evaluator_prompt (lit "A negotiation.") [] (lit "Score clarity 1-5."))].
Proof.
  exact (proj2 (proj2 (proj2 (proj2
    (finish_with_empty_transcript times_out (click FinishEvaluate []) simulating_session
       (lit "A negotiation.") eq_refl eq_refl eq_refl eq_refl eq_refl))))).
Defined.

(** ** The end-to-end scenario of section 8 *)

Example end_to_end :
  fst (runs [(replies example_reply, click GenerateScenario []);
             (replies (lit "What will you do next?"), click SubmitMove anchor_move);
             (replies (lit "Feedback: strong anchoring, weak follow-through."),
              click FinishEvaluate []);
             (replies (lit "A second evaluation."), no_click)]
         initial_session)
  = mkSession (Some (lit "A negotiation.")) (Some (lit "Score clarity 1-5."))
      [mkMsg (lit "user") anchor_move; mkMsg (lit "assistant") (lit "What will you do next?")]
      (Some (lit "Feedback: strong anchoring, weak follow-through.")) true
  /\ length (calls (snd (runs [(replies example_reply, click GenerateScenario []);
             (replies (lit "What will you do next?"), click SubmitMove anchor_move);
             (replies (lit "Feedback: strong anchoring, weak follow-through."),
              click FinishEvaluate []);
             (replies (lit "A second evaluation."), no_click)]
         initial_session))) = 3.
Proof. split; vm_compute; reflexivity. Qed.

(** ** More about the string operations *)

Lemma find_nil_absent (d : pystr) : d <> [] -> find d [] = None.
Proof. destruct d; [congruence | reflexivity]. Qed.

Lemma find_None_nonempty (d s : pystr) : find d s = None -> d <> [].
Proof. intros F ->. now destruct s. Qed.

(** A character that does not occur in [d] separates the occurrences of
    [d]: none can straddle it. *)
Lemma find_none_sep (d x y : pystr) (c : char) :
  ~ In c d -> find d x = None -> find d y = None -> find d (x ++ c :: y) = None.
Proof.
  intros Hc Hx Hy. pose proof (find_None_nonempty d x Hx) as Hd.
  induction x as [|b x IH]; simpl.
  - destruct d as [|a d]; [congruence|]. simpl.
    destruct (N.eqb_spec a c) as [->|_]; [exfalso; apply Hc; now left|].
    simpl. now rewrite Hy.
  - simpl in Hx. destruct (starts_with d (b :: x)) eqn:E; [discriminate|].
    destruct (find d x) as [k|] eqn:F; [discriminate|].
    destruct (starts_with d (b :: x ++ c :: y)) eqn:E'.
    + exfalso. destruct (le_lt_dec (length d) (length (b :: x))) as [Hle|Hlt].
      * change (b :: x ++ c :: y) with ((b :: x) ++ c :: y) in E'.
        rewrite starts_with_long in E' by exact Hle. congruence.
      * apply starts_with_iff in E' as [r Hr].
        assert (Hn : nth_error ((b :: x) ++ c :: y) (length (b :: x))
                     = nth_error (d ++ r) (length (b :: x))) by now rewrite <- Hr.
        rewrite nth_error_app2, Nat.sub_diag in Hn by lia.
        rewrite nth_error_app1 in Hn by exact Hlt.
        change (nth_error (c :: y) 0) with (Some c) in Hn.
        symmetry in Hn. apply nth_error_In in Hn. contradiction.
    + now rewrite (IH eq_refl).
Qed.

Lemma starts_with_firstn (d x : pystr) (n : nat) :
  starts_with d (firstn n x) = true -> starts_with d x = true.
Proof.
  intros H. apply starts_with_iff in H as [r Hr]. apply starts_with_iff.
  exists (r ++ skipn n x). rewrite app_assoc, <- Hr. symmetry. apply firstn_skipn.
Qed.

(** The text before the first occurrence of [d] holds no occurrence. *)
Lemma find_firstn_absent (d s : pystr) (j : nat) :
  d <> [] -> find d s = Some j -> find d (firstn j s) = None.
Proof.
  intros Hd. revert j; induction s as [|c s IH]; intros j; simpl.
  - destruct (starts_with d []); [|discriminate]. intros [= <-]. now apply find_nil_absent.
  - destruct (starts_with d (c :: s)) eqn:E.
    + intros [= <-]. now apply find_nil_absent.
    + destruct (find d s) as [k|] eqn:F; [|discriminate]. simpl. intros [= <-].
      simpl. destruct (starts_with d (c :: firstn k s)) eqn:E'.
      * apply (starts_with_firstn d (c :: s) (S k)) in E'. congruence.
      * now rewrite (IH k eq_refl).
Qed.

(** A text without [d] has no part with [d]. *)
Lemma find_None_part (d a s b : pystr) :
  find d (a ++ s ++ b) = None -> find d s = None.
Proof.
  intros H. apply find_None. intros pre post Hs.
  apply (proj1 (find_None d (a ++ s ++ b)) H (a ++ pre) (post ++ b)).
  rewrite Hs. now rewrite <- !app_assoc.
Qed.

(** ** More about [strip] *)

Lemma lstrip_part (s : pystr) : exists a, s = a ++ lstrip s.
Proof.
  induction s as [|c s [a Ha]]; simpl; [now exists []|].
  destruct (py_isspace c).
  - exists (c :: a). simpl. now rewrite <- Ha.
  - now exists [].
Qed.

Lemma rstrip_part (s : pystr) : exists b, s = rstrip s ++ b.
Proof.
  unfold rstrip. destruct (lstrip_part (rev s)) as [a Ha].
  exists (rev a). rewrite <- rev_app_distr, <- Ha. symmetry. apply rev_involutive.
Qed.

Lemma strip_part (s : pystr) : exists a b, s = a ++ strip s ++ b.
Proof.
  destruct (lstrip_part s) as [a Ha]. destruct (rstrip_part (lstrip s)) as [b Hb].
  exists a, b. unfold strip. now rewrite <- Hb.
Qed.

Lemma find_None_strip (d s : pystr) : find d s = None -> find d (strip s) = None.
Proof.
  intros H. destruct (strip_part s) as (a & b & Hs). rewrite Hs in H.
  exact (find_None_part d a (strip s) b H).
Qed.

Lemma lstrip_blank_app (ws s : pystr) : blank ws = true -> lstrip (ws ++ s) = lstrip s.
Proof.
  induction ws as [|c ws IH]; simpl; [reflexivity|].
  destruct (py_isspace c); simpl; [exact IH | discriminate].
Qed.

Lemma lstrip_app (s b : pystr) :
  lstrip (s ++ b) = if blank s then lstrip b else lstrip s ++ b.
Proof.
  induction s as [|c s IH]; simpl; [reflexivity|].
  destruct (py_isspace c); simpl; [exact IH | reflexivity].
Qed.

Lemma rstrip_app_blank (s ws : pystr) : blank ws = true -> rstrip (s ++ ws) = rstrip s.
Proof.
  intros B. unfold rstrip. rewrite rev_app_distr, lstrip_blank_app; [reflexivity|].
  now rewrite blank_rev.
Qed.

(** Whitespace around a text does not change what [strip] returns. *)
Lemma strip_pad (a s b : pystr) :
  blank a = true -> blank b = true -> strip (a ++ s ++ b) = strip s.
Proof.
  intros Ba Bb. unfold strip. rewrite lstrip_blank_app by exact Ba.
  rewrite lstrip_app. destruct (blank s) eqn:Bs.
  - apply lstrip_nil_iff in Bb. apply lstrip_nil_iff in Bs. now rewrite Bb, Bs.
  - now apply rstrip_app_blank.
Qed.

Lemma lstrip_idem (s : pystr) : lstrip (lstrip s) = lstrip s.
Proof.
  induction s as [|c s IH]; simpl; [reflexivity|].
  destruct (py_isspace c) eqn:E; [exact IH | simpl; now rewrite E].
Qed.

Lemma rstrip_cons (c : char) (r : pystr) :
  py_isspace c = false -> rstrip (c :: r) = c :: rstrip r.
Proof.
  intros E. unfold rstrip. simpl. rewrite lstrip_app.
  destruct (blank (rev r)) eqn:B.
  - apply lstrip_nil_iff in B. rewrite B. simpl. now rewrite E.
  - now rewrite rev_app_distr.
Qed.

(** What [strip] returns has nothing left to strip. *)
Lemma strip_idem (s : pystr) : strip (strip s) = strip s.
Proof.
  unfold strip. destruct (lstrip s) as [|c r] eqn:L; [reflexivity|].
  pose proof (lstrip_head s c r L) as E.
  rewrite (rstrip_cons c r E). simpl. rewrite E.
  rewrite (rstrip_cons c (rstrip r) E). f_equal.
  unfold rstrip. now rewrite rev_involutive, lstrip_idem.
Qed.

(** ** More about the parser *)

Lemma DELIM_nonempty : DELIM <> [].
Proof. discriminate. Qed.

Lemma not_in_chars (c : char) (d : pystr) : existsb (N.eqb c) d = false -> ~ In c d.
Proof.
  intros E Hin.
  assert (existsb (N.eqb c) d = true)
    by (apply existsb_exists; exists c; split; [exact Hin | apply N.eqb_refl]).
  congruence.
Qed.

(** X1: only the text between the first and the second delimiter becomes
    the rubric; whatever follows a second delimiter is dropped. *)
Theorem parse_reply_drops_after_second (pre mid rest : pystr) :
  py_in DELIM pre = false ->
  py_in DELIM mid = false ->
  parse_reply (pre ++ DELIM ++ mid ++ DELIM ++ rest)
  = (strip (py_replace LABEL [] pre), strip mid).
Proof.
  intros Hpre Hmid. rewrite parse_reply_first by exact Hpre.
  apply py_in_false in Hmid.
  rewrite (find_first DELIM DELIM_last_unique mid rest Hmid).
  now rewrite firstn_before.
Qed.

Lemma parse_reply_drops_after_second_witness :
  parse_reply (lit "SCENARIO: Foo" ++ nl ++ DELIM ++ lit " Bar " ++ DELIM ++ lit " Baz")
  = (lit "Foo", lit "Bar").
Proof.
  exact (parse_reply_drops_after_second (lit "SCENARIO: Foo" ++ nl) (lit " Bar ") (lit " Baz")
           eq_refl eq_refl).
Defined.

(** X2: a reply in the format the designer prompt asks for is parsed back
    into its two parts: for a trimmed scenario without label or delimiter
    and a trimmed rubric without delimiter, the reply
    [SCENARIO: <scenario>\nEVALUATION_RUBRIC:\n<rubric>] yields exactly the
    scenario and the rubric. *)
Theorem parse_formatted_reply (scenario rubric : pystr) :
  strip scenario = scenario ->
  strip rubric = rubric ->
  py_in LABEL scenario = false ->
  py_in DELIM scenario = false ->
  py_in DELIM rubric = false ->
  parse_reply (formatted_reply scenario rubric) = (scenario, rubric).
Proof.
  intros Hs Hr HL HD HDr.
  apply py_in_false in HL. apply py_in_false in HD. apply py_in_false in HDr.
  assert (Hbody : forall d, existsb (N.eqb 32%N) d = false ->
                            existsb (N.eqb 10%N) d = false ->
                            d <> [] -> find d scenario = None ->
                            find d (lit " " ++ scenario ++ nl) = None).
  { intros d H32 H10 Hd F.
    apply (find_none_sep d [] (scenario ++ nl) 32%N (not_in_chars _ _ H32)).
    - now apply find_nil_absent.
    - apply (find_none_sep d scenario [] 10%N (not_in_chars _ _ H10) F).
      now apply find_nil_absent. }
  assert (Hpre : py_in DELIM (LABEL ++ lit " " ++ scenario ++ nl) = false).
  { apply py_in_false.
    apply (find_none_sep DELIM LABEL (scenario ++ nl) 32%N).
    - apply not_in_chars. reflexivity.
    - reflexivity.
    - apply (find_none_sep DELIM scenario [] 10%N).
      + apply not_in_chars. reflexivity.
      + exact HD.
      + reflexivity. }
  assert (Hpost : py_in DELIM (nl ++ rubric) = false).
  { apply py_in_false. apply (find_none_sep DELIM [] rubric 10%N).
    - apply not_in_chars. reflexivity.
    - reflexivity.
    - exact HDr. }
  unfold formatted_reply.
  replace (LABEL ++ lit " " ++ scenario ++ nl ++ DELIM ++ nl ++ rubric)
    with ((LABEL ++ lit " " ++ scenario ++ nl) ++ DELIM ++ (nl ++ rubric))
    by now rewrite <- !app_assoc.
  rewrite parse_reply_first by exact Hpre.
  apply py_in_false in Hpost. rewrite Hpost.
  rewrite py_replace_leading_label.
  - f_equal.
    + rewrite (strip_pad (lit " ") scenario nl) by reflexivity. exact Hs.
    + rewrite <- (app_nil_r rubric) at 1.
      rewrite (strip_pad nl rubric []) by reflexivity. exact Hr.
  - apply py_in_false. apply Hbody; try reflexivity; [discriminate | exact HL].
Qed.

Lemma parse_formatted_reply_witness :
  parse_reply (formatted_reply (lit "A negotiation.") (lit "Score clarity 1-5."))
  = (lit "A negotiation.", lit "Score clarity 1-5.").
Proof.
  exact (parse_formatted_reply (lit "A negotiation.") (lit "Score clarity 1-5.")
           eq_refl eq_refl eq_refl eq_refl eq_refl).
Defined.

(** X3: both parts that the parser returns are trimmed: stripping them
    again changes nothing, whatever the reply. *)
Theorem parse_reply_trimmed (text_out : pystr) :
  strip (fst (parse_reply text_out)) = fst (parse_reply text_out)
  /\ strip (snd (parse_reply text_out)) = snd (parse_reply text_out).
Proof.
  unfold parse_reply. destruct (py_in DELIM text_out); cbn [fst snd].
  - split; apply strip_idem.
  - split; [apply strip_idem | reflexivity].
Qed.

(** X4: the rubric that the parser returns never contains the delimiter
    [EVALUATION_RUBRIC:], whatever the reply. *)
Theorem rubric_without_delimiter (text_out : pystr) :
  py_in DELIM (snd (parse_reply text_out)) = false.
Proof.
  unfold parse_reply. destruct (py_in DELIM text_out) eqn:P; cbn [snd]; [|reflexivity].
  unfold py_in in P. destruct (find DELIM text_out) as [i|] eqn:F; [clear P|discriminate].
  apply py_in_false, find_None_strip.
  rewrite (py_split_eq DELIM DELIM_nonempty), F. unfold item. cbn [nth].
  rewrite (py_split_eq DELIM DELIM_nonempty).
  destruct (find DELIM (skipn (i + length DELIM) text_out)) as [j|] eqn:G; cbn [nth].
  - exact (find_firstn_absent DELIM _ j DELIM_nonempty G).
  - exact G.
Qed.

(** ** More about the runs of [main] *)

Lemma conversation_text_move_eq (t : list Msg) :
  conversation_text_move t = render_transcript t.
Proof. unfold conversation_text_move. now rewrite fold_add_message. Qed.

Lemma conversation_text_eval_eq (t : list Msg) :
  conversation_text_eval t = render_transcript t.
Proof. unfold conversation_text_eval. now rewrite fold_add_message. Qed.

Lemma render_transcript_snoc (t : list Msg) (m : Msg) :
  render_transcript (t ++ [m]) = render_transcript t ++ render_turn m.
Proof. unfold render_transcript. rewrite flat_map_app. simpl. now rewrite app_nil_r. Qed.

(** Reduces the session tests of a statement once the session is given by
    its fields. *)
Ltac session_tests :=
  unfold consistent, state_of;
  cbn [scenario_output evaluation_rubric simulation_messages evaluation_feedback
       simulation_finished is_None Bool.eqb implb negb andb clicked user_input fmt_opt];
  rewrite ?andb_false_r.

(** X5: the gateway traffic of one run, in a session that satisfies the
    invariants.  A run makes at most one completion call: the designer call
    for a Generate click in SETUP; the facilitator call for a Submit click
    with a non-blank move in SIMULATING, whose conversation text is the
    rendered transcript followed by the new move as a USER line; the
    evaluator call, over the rendered transcript, for a Finish click in
    SIMULATING and for every run in FINISHED while feedback is missing; and
    no call in any other case. *)
Theorem calls_of_run (complete : Gateway) (w : Widgets) (s : Session) :
  consistent s = true ->
  calls (events_of (main complete w s))
  = match state_of s, clicked w with
    | SETUP, Some GenerateScenario => [designer_request w]
    | SIMULATING, Some SubmitMove =>
        if blank (user_input w) then []
        else [facilitator_request (fmt_opt (scenario_output s))
                (render_transcript (simulation_messages s)
                 ++ lit "USER" ++ lit ": " ++ user_input w ++ nl)]
    | SIMULATING, Some FinishEvaluate
    | FINISHED_evaluating, _ =>
        [evaluator_request (scenario_output s)
           (render_transcript (simulation_messages s)) (evaluation_rubric s)]
    | _, _ => []
    end
  /\ length (calls (events_of (main complete w s))) <= 1.
Proof.
  intros Hc.
  assert (Hcalls : calls (events_of (main complete w s))
    = match state_of s, clicked w with
      | SETUP, Some GenerateScenario => [designer_request w]
      | SIMULATING, Some SubmitMove =>
          if blank (user_input w) then []
          else [facilitator_request (fmt_opt (scenario_output s))
                  (render_transcript (simulation_messages s)
                   ++ lit "USER" ++ lit ": " ++ user_input w ++ nl)]
      | SIMULATING, Some FinishEvaluate
      | FINISHED_evaluating, _ =>
          [evaluator_request (scenario_output s)
             (render_transcript (simulation_messages s)) (evaluation_rubric s)]
      | _, _ => []
      end).
  { revert Hc.
    destruct s as [[so|] [er|] sm [ef|] [|]], w as [[[]|] ut us ur um ud ui];
      session_tests; try discriminate; intros _;
      rewrite <- ?is_empty_strip;
      run_cases; cbn [calls];
      rewrite ?conversation_text_move_eq, ?conversation_text_eval_eq,
        ?render_transcript_snoc;
      try reflexivity; destruct sm; discriminate. }
  split; [exact Hcalls|]. rewrite Hcalls.
  destruct (state_of s), (clicked w) as [[]|]; try destruct (blank (user_input w));
    simpl; lia.
Qed.

Lemma calls_of_run_witness :
  calls (events_of (main times_out (click SubmitMove anchor_move) simulating_session))
  = [facilitator_request (lit "A negotiation.")
       (lit "USER" ++ lit ": " ++ anchor_move ++ nl)].
Proof.
  exact (proj1 (calls_of_run times_out (click SubmitMove anchor_move) simulating_session
                  eq_refl)).
Defined.

(** X6: in every session that runs of the script can reach from the fresh
    one, the transcript is empty while there is no scenario, a finished
    session has a scenario, and feedback is present only in a finished
    session. *)
Theorem reachable_invariants (s : Session) :
  reachable s ->
  (scenario_output s = None -> simulation_messages s = [])
  /\ (simulation_finished s = true -> scenario_output s <> None)
  /\ (evaluation_feedback s <> None -> simulation_finished s = true).
Proof.
  intros R. apply reachable_consistent in R. revert R.
  destruct s as [[so|] [er|] [|m sm] [ef|] [|]]; session_tests;
    try discriminate; intros _; repeat split; congruence.
Qed.

Lemma reachable_invariants_witness :
  (scenario_output simulating_session = None -> simulation_messages simulating_session = [])
  /\ (simulation_finished simulating_session = true ->
      scenario_output simulating_session <> None)
  /\ (evaluation_feedback simulating_session <> None ->
      simulation_finished simulating_session = true).
Proof.
  exact (reachable_invariants simulating_session
           (reachable_run (replies example_reply) (click GenerateScenario [])
              initial_session reachable_initial)).
Defined.

(** X7: one run moves the controller only along SETUP to SIMULATING,
    SIMULATING to FINISHED, FINISHED(evaluating) to FINISHED(evaluated), and
    FINISHED to SETUP, or leaves it where it is; and a state change other
    than the evaluation completing needs the click of its button: Generate
    to leave SETUP, Finish to leave SIMULATING, Restart to go back to
    SETUP. *)
Theorem controller_steps (complete : Gateway) (w : Widgets) (s : Session) :
  consistent s = true ->
  may_step (state_of s) (state_of (session_of (main complete w s))) = true
  /\ (state_of (session_of (main complete w s)) <> state_of s ->
      match state_of s, state_of (session_of (main complete w s)) with
      | SETUP, _ => clicked w = Some GenerateScenario
      | SIMULATING, _ => clicked w = Some FinishEvaluate
      | _, SETUP => clicked w = Some RestartEverything
      | _, _ => True
      end).
Proof.
  destruct s as [[so|] [er|] sm [ef|] [|]], w as [[[]|] ut us ur um ud ui];
    session_tests; try discriminate; intros _; run_cases; session_tests;
    (split; [reflexivity | intros H; try reflexivity; try exact I; congruence]).
Qed.

Lemma controller_steps_witness :
  may_step (state_of simulating_session)
    (state_of (session_of (main times_out (click FinishEvaluate []) simulating_session)))
  = true.
Proof.
  exact (proj1 (controller_steps times_out (click FinishEvaluate []) simulating_session
                  eq_refl)).
Defined.

(** X8: a scenario is generated once: when the session has a scenario, a
    run either restarts, leaving the fresh session, or keeps the scenario
    and the rubric as they are; it never sends the designer request. *)
Theorem scenario_set_once (complete : Gateway) (w : Widgets) (s : Session) (sc : pystr) :
  scenario_output s = Some sc ->
  (session_of (main complete w s) = initial_session
   \/ (scenario_output (session_of (main complete w s)) = Some sc
       /\ evaluation_rubric (session_of (main complete w s)) = evaluation_rubric s))
  /\ Forall (fun req => model req = lit "gpt-4o") (calls (events_of (main complete w s))).
Proof.
  destruct s as [so er sm [ef|] [|]], w as [[[]|] ut us ur um ud ui]; simpl;
    intros ->; run_cases; cbn [calls];
    (split; [first [left; reflexivity | right; split; reflexivity]
            | repeat constructor]).
Qed.

Lemma scenario_set_once_witness :
  (session_of (main (replies example_reply) (click GenerateScenario []) simulating_session)
   = initial_session
   \/ (scenario_output
         (session_of (main (replies example_reply) (click GenerateScenario [])
                        simulating_session))
       = Some (lit "A negotiation.")
       /\ evaluation_rubric
            (session_of (main (replies example_reply) (click GenerateScenario [])
                           simulating_session))
          = evaluation_rubric simulating_session))
  /\ Forall (fun req => model req = lit "gpt-4o")
       (calls (events_of (main (replies example_reply) (click GenerateScenario [])
                            simulating_session))).
Proof.
  exact (scenario_set_once (replies example_reply) (click GenerateScenario [])
           simulating_session (lit "A negotiation.") eq_refl).
Defined.

(** X9: once feedback is present the session is closed to everything but
    the restart: a run makes no completion call, raises nothing, and leaves
    the session as it is, a Submit, Finish or Generate click included,
    unless the Restart button was clicked, which leaves the fresh
    session. *)
Theorem evaluated_session_closed
    (complete : Gateway) (w : Widgets) (s : Session) (f : pystr) :
  consistent s = true ->
  evaluation_feedback s = Some f ->
  calls (events_of (main complete w s)) = []
  /\ result_of (main complete w s) = Done tt
  /\ session_of (main complete w s)
     = match clicked w with
       | Some RestartEverything => initial_session
       | _ => s
       end.
Proof.
  destruct s as [[so|] [er|] sm [ef|] [|]], w as [[[]|] ut us ur um ud ui];
    session_tests; try discriminate; intros _ [= ->]; run_cases;
    repeat split; reflexivity.
Qed.

Lemma evaluated_session_closed_witness :
  session_of
    (main times_out (click SubmitMove anchor_move)
       (mkSession (Some (lit "A negotiation.")) (Some (lit "Score clarity 1-5."))
          [] (Some (lit "Feedback.")) true))
  = mkSession (Some (lit "A negotiation.")) (Some (lit "Score clarity 1-5."))
      [] (Some (lit "Feedback.")) true.
Proof.
  exact (proj2 (proj2 (evaluated_session_closed times_out (click SubmitMove anchor_move)
    (mkSession (Some (lit "A negotiation.")) (Some (lit "Score clarity 1-5."))
       [] (Some (lit "Feedback.")) true) (lit "Feedback.") eq_refl eq_refl))).
Defined.

(** X10: a run that no click caused changes nothing, emits nothing and
    raises nothing, except in a finished session whose feedback is still
    missing, where it is the run that evaluates. *)
Theorem rerender_is_idle (complete : Gateway) (w : Widgets) (s : Session) :
  clicked w = None ->
  state_of s <> FINISHED_evaluating ->
  main complete w s = (s, [], Done tt).
Proof.
  destruct s as [[so|] er sm [ef|] [|]], w as [c ut us ur um ud ui]; simpl;
    intros -> H; session_tests; try (exfalso; apply H; reflexivity);
    run_script; reflexivity.
Qed.

Lemma rerender_is_idle_witness :
  main times_out no_click simulating_session = (simulating_session, [], Done tt).
Proof.
  refine (rerender_is_idle times_out no_click simulating_session eq_refl _).
  vm_compute. discriminate.
Defined.

(** ** The shape of the transcript *)

Lemma turns_ok_snoc_user (t : list Msg) (p : bool) (text : pystr) :
  turns_ok p (t ++ [mkMsg (lit "user") text]) = turns_ok p t.
Proof.
  revert p; induction t as [|m t IH]; intros p; simpl; [reflexivity|].
  destruct (str_eqb (role m) (lit "user")); now rewrite IH.
Qed.

Lemma turns_ok_snoc_exchange (t : list Msg) (p : bool) (text reply : pystr) :
  turns_ok p ((t ++ [mkMsg (lit "user") text]) ++ [mkMsg (lit "assistant") reply])
  = turns_ok p t.
Proof.
  revert p; induction t as [|m t IH]; intros p; simpl; [reflexivity|].
  destruct (str_eqb (role m) (lit "user")); now rewrite IH.
Qed.

Lemma transcript_ok_main complete w s :
  transcript_ok (simulation_messages s) = true ->
  transcript_ok (simulation_messages (session_of (main complete w s))) = true.
Proof.
  unfold transcript_ok.
  destruct s as [[so|] er sm [ef|] [|]], w as [[[]|] ut us ur um ud ui];
    cbn [simulation_messages]; intros H; run_cases;
    rewrite ?turns_ok_snoc_exchange, ?turns_ok_snoc_user; try exact H; reflexivity.
Qed.

(** X11: in every session that the script can reach, every turn of the
    transcript has role [user] or [assistant], and every [assistant] turn
    comes directly after a [user] turn: a facilitator reply is never stored
    without the move it answers, also after runs that a failing call
    stopped. *)
Theorem reachable_transcript_ok (s : Session) :
  reachable s -> transcript_ok (simulation_messages s) = true.
Proof.
  induction 1 as [|complete w s _ IH]; [reflexivity | now apply transcript_ok_main].
Qed.

Lemma reachable_transcript_ok_witness :
  transcript_ok
    (simulation_messages
       (session_of (main (replies (lit "What next?")) (click SubmitMove anchor_move)
                      simulating_session)))
  = true.
Proof.
  exact (reachable_transcript_ok _
           (reachable_run (replies (lit "What next?")) (click SubmitMove anchor_move)
              simulating_session
              (reachable_run (replies example_reply) (click GenerateScenario [])
                 initial_session reachable_initial))).
Defined.

(** ** Runs in sequence *)

(** X12: a failed evaluation is tried again by the next run: when the
    evaluator call of the Finish run fails, the session stays finished
    without feedback, and the re-render that follows sends the same
    evaluator request again and stores its reply as feedback. *)
Theorem failed_evaluation_retried
    (complete1 complete2 : Gateway) (w1 w2 : Widgets) (s : Session)
    (sc fb : pystr) (e : GatewayError) :
  scenario_output s = Some sc ->
  simulation_finished s = false ->
  evaluation_feedback s = None ->
  clicked w1 = Some FinishEvaluate ->
  clicked w2 = None ->
  complete1 (evaluator_request (Some sc) (render_transcript (simulation_messages s))
               (evaluation_rubric s)) = Fails e ->
  complete2 (evaluator_request (Some sc) (render_transcript (simulation_messages s))
               (evaluation_rubric s)) = Text fb ->
  session_of (main complete1 w1 s)
  = mkSession (Some sc) (evaluation_rubric s) (simulation_messages s) None true
  /\ result_of (main complete1 w1 s) = Raised e
  /\ fst (runs [(complete1, w1); (complete2, w2)] s)
     = mkSession (Some sc) (evaluation_rubric s) (simulation_messages s) (Some fb) true
  /\ calls (snd (runs [(complete1, w1); (complete2, w2)] s))
     = [evaluator_request (Some sc) (render_transcript (simulation_messages s))
          (evaluation_rubric s);
        evaluator_request (Some sc) (render_transcript (simulation_messages s))
          (evaluation_rubric s)].
Proof.
  destruct s as [so er sm ef sf], w1 as [c1 ut1 us1 ur1 um1 ud1 ui1],
    w2 as [c2 ut2 us2 ur2 um2 ud2 ui2].
  cbn [scenario_output simulation_finished evaluation_feedback clicked
       simulation_messages evaluation_rubric].
  intros -> -> -> -> -> H1 H2.
  unfold evaluator_request in H1, H2. cbn [fmt_opt] in H1, H2.
  rewrite <- conversation_text_eval_eq in H1, H2.
  assert (R1 : main complete1 (mkWidgets (Some FinishEvaluate) ut1 us1 ur1 um1 ud1 ui1)
                 (mkSession (Some sc) er sm None false)
               = (mkSession (Some sc) er sm None true,
                  [EvStore K_simulation_finished;
                   EvSuccess (lit "You've chosen to finish. Scroll to Step 3 for evaluation.");
                   EvInfo (lit "Evaluating your entire conversation... please wait.");
                   EvCall (mkRequest (lit "gpt-4o") (Temperature 7)
                             (lit "You are the evaluator.")
                             (evaluator_prompt sc (conversation_text_eval sm) (fmt_opt er)))],
                  Raised e)).
  { run_script. cbn [fmt_opt]. rewrite H1. run_script. reflexivity. }
  rewrite runs_cons_session, runs_cons_events, runs_cons_session, runs_cons_events.
  rewrite R1. unfold session_of, events_of, result_of. cbn [fst snd runs].
  assert (R2 : main complete2 (mkWidgets None ut2 us2 ur2 um2 ud2 ui2)
                 (mkSession (Some sc) er sm None true)
               = (mkSession (Some sc) er sm (Some fb) true,
                  [EvInfo (lit "Evaluating your entire conversation... please wait.");
                   EvCall (mkRequest (lit "gpt-4o") (Temperature 7)
                             (lit "You are the evaluator.")
                             (evaluator_prompt sc (conversation_text_eval sm) (fmt_opt er)));
                   EvStore K_evaluation_feedback;
                   EvSuccess (lit "Evaluation complete! See below for detailed feedback.")],
                  Done tt)).
  { run_script. cbn [fmt_opt]. rewrite H2. run_script. reflexivity. }
  rewrite R2. cbn [fst snd app calls]. rewrite ?app_nil_r. cbn [calls].
  rewrite conversation_text_eval_eq. repeat split; reflexivity.
Qed.

Lemma failed_evaluation_retried_witness :
  fst (runs [(times_out, click FinishEvaluate []);
             (replies (lit "Feedback."), no_click)] simulating_session)
  = mkSession (Some (lit "A negotiation.")) (Some (lit "Score clarity 1-5."))
      [] (Some (lit "Feedback.")) true.
Proof.
  exact (proj1 (proj2 (proj2
    (failed_evaluation_retried times_out (replies (lit "Feedback."))
       (click FinishEvaluate []) no_click simulating_session
       (lit "A negotiation.") (lit "Feedback.") TIMEOUT
       eq_refl eq_refl eq_refl eq_refl eq_refl eq_refl eq_refl)))).
Defined.

(** ** Generating the scenario *)

Lemma blank_app (a b : pystr) : blank (a ++ b) = blank a && blank b.
Proof. apply forallb_app. Qed.

Lemma blank_without_delimiter (text : pystr) :
  blank text = true -> py_in DELIM text = false.
Proof.
  intros B. apply py_in_false, find_None. intros pre post Hs.
  rewrite Hs, !blank_app in B.
  replace (blank DELIM) with false in B by reflexivity.
  rewrite andb_false_r in B. discriminate.
Qed.

(** A successful Generate run of a session without scenario. *)
Lemma main_generate complete w s text_out :
  scenario_output s = None -> simulation_finished s = false ->
  clicked w = Some GenerateScenario ->
  complete (designer_request w) = Text text_out ->
  main complete w s
  = (mkSession (Some (fst (parse_reply text_out))) (Some (snd (parse_reply text_out)))
       (simulation_messages s) (evaluation_feedback s) false,
     [EvCall (designer_request w); EvStore K_scenario_output; EvStore K_evaluation_rubric;
      EvSuccess (lit "Scenario Generated! Please scroll down to continue.")],
     Done tt).
Proof.
  destruct s as [so er sm ef sf], w as [c ut us ur um ud ui]. simpl.
  intros -> -> -> H. unfold designer_request in *.
  cbn [user_tactics user_scenario user_role user_make_up user_difficulty] in *.
  run_script. rewrite H. run_script. destruct (parse_reply text_out). reflexivity.
Qed.

(** X13: every reply of the designer starts the simulation.  A successful
    Generate run stores the two parts of the parsed reply and the controller
    is in SIMULATING afterwards, whatever the reply holds; for an empty or
    whitespace-only reply the stored scenario is the empty string and the
    rubric is the sentinel [No rubric found.]. *)
Theorem generation_starts_simulation
    (complete : Gateway) (w : Widgets) (s : Session) (text_out : pystr) :
  scenario_output s = None ->
  simulation_finished s = false ->
  clicked w = Some GenerateScenario ->
  complete (designer_request w) = Text text_out ->
  scenario_output (session_of (main complete w s)) = Some (fst (parse_reply text_out))
  /\ evaluation_rubric (session_of (main complete w s)) = Some (snd (parse_reply text_out))
  /\ state_of (session_of (main complete w s)) = SIMULATING
  /\ calls (events_of (main complete w s)) = [designer_request w]
  /\ (blank text_out = true ->
      scenario_output (session_of (main complete w s)) = Some []
      /\ evaluation_rubric (session_of (main complete w s)) = Some NO_RUBRIC).
Proof.
  intros Hs Hf Hc Hr. rewrite (main_generate complete w s text_out Hs Hf Hc Hr).
  unfold session_of, events_of. cbn [fst snd scenario_output evaluation_rubric calls].
  repeat split; try reflexivity.
  - unfold parse_reply. rewrite (blank_without_delimiter text_out H). cbn [fst].
    f_equal. now apply strip_nil_iff.
  - unfold parse_reply. now rewrite (blank_without_delimiter text_out H).
Qed.

Lemma generation_starts_simulation_witness :
  scenario_output (session_of (main (replies (lit "  ")) (click GenerateScenario [])
                                 initial_session))
  = Some []
  /\ evaluation_rubric (session_of (main (replies (lit "  ")) (click GenerateScenario [])
                                      initial_session))
     = Some NO_RUBRIC.
Proof.
  exact (proj2 (proj2 (proj2 (proj2
    (generation_starts_simulation (replies (lit "  ")) (click GenerateScenario [])
       initial_session (lit "  ") eq_refl eq_refl eq_refl eq_refl)))) eq_refl).
Defined.

(** X14: the sentinel is handed on as a rubric.  When the designer reply
    has no delimiter and the user finishes at once, the evaluator request
    carries the whole trimmed reply as scenario, the empty conversation
    text, and [No rubric found.] as rubric. *)
Theorem sentinel_reaches_evaluator
    (complete1 complete2 : Gateway) (w1 w2 : Widgets) (text_out : pystr) :
  clicked w1 = Some GenerateScenario ->
  complete1 (designer_request w1) = Text text_out ->
  py_in DELIM text_out = false ->
  clicked w2 = Some FinishEvaluate ->
  calls (snd (runs [(complete1, w1); (complete2, w2)] initial_session))
  = [designer_request w1;
     evaluator_request (Some (strip text_out)) [] (Some NO_RUBRIC)].
Proof.
  intros Hc1 Hr Hd Hc2.
  rewrite runs_cons_events, runs_cons_events.
  rewrite (main_generate complete1 w1 initial_session text_out eq_refl eq_refl Hc1 Hr).
  unfold parse_reply. rewrite Hd.
  destruct w2 as [c ut us ur um ud ui]. cbn [clicked] in Hc2. subst c.
  unfold initial_session. cbn [runs]. run_cases; cbn [calls app]; reflexivity.
Qed.

Lemma sentinel_reaches_evaluator_witness :
  calls (snd (runs [(replies (lit "Just a scenario."), click GenerateScenario []);
                    (times_out, click FinishEvaluate [])] initial_session))
  = [designer_request (click GenerateScenario []);
     evaluator_request (Some (lit "Just a scenario.")) [] (Some NO_RUBRIC)].
Proof.
  exact (sentinel_reaches_evaluator (replies (lit "Just a scenario.")) times_out
           (click GenerateScenario []) (click FinishEvaluate []) (lit "Just a scenario.")
           eq_refl eq_refl eq_refl eq_refl).
Defined.

(** ** The guards at the top of the script *)

Lemma ensure_present (k0 : Key) (v0 : Value) (st : SessionState) (k : Key) (v : Value) :
  st k = Some v -> ensure k0 v0 st k = Some v.
Proof.
  intros H. unfold ensure. destruct (st k0) eqn:E; [exact H|].
  unfold set_key. destruct k, k0; cbn [Key_eqb]; congruence.
Qed.

Lemma ensure_same (k : Key) (v0 : Value) (st : SessionState) :
  ensure k v0 st k = match st k with Some v => Some v | None => Some v0 end.
Proof.
  unfold ensure. destruct (st k) eqn:E; [exact E|].
  unfold set_key. now destruct k.
Qed.

Lemma ensure_other (k0 : Key) (v0 : Value) (st : SessionState) (k : Key) :
  Key_eqb k k0 = false -> ensure k0 v0 st k = st k.
Proof.
  intros H. unfold ensure. destruct (st k0); [reflexivity|].
  unfold set_key. now rewrite H.
Qed.

Lemma ensure_session_keys_at (st : SessionState) (k : Key) :
  ensure_session_keys st k
  = match st k with
    | Some v => Some v
    | None =>
        Some match k with
             | K_scenario_output | K_evaluation_rubric | K_evaluation_feedback => VNone
             | K_simulation_messages => VList []
             | K_simulation_finished => VBool false
             end
    end.
Proof.
  unfold ensure_session_keys.
  destruct k;
    repeat first [rewrite ensure_same | rewrite ensure_other by reflexivity];
    destruct (st _); reflexivity.
Qed.

(** X15: after the guards every one of the five keys is present; a key that
    was present keeps its value, and a key that was missing holds its
    default ([None], [None], the empty list, [None], [False]); running the
    guards twice is the same as running them once. *)
Theorem guards_fill_missing_keys (st : SessionState) (k : Key) :
  ensure_session_keys st k
  = match st k with
    | Some v => Some v
    | None =>
        Some match k with
             | K_scenario_output | K_evaluation_rubric | K_evaluation_feedback => VNone
             | K_simulation_messages => VList []
             | K_simulation_finished => VBool false
             end
    end
  /\ ensure_session_keys st k <> None
  /\ ensure_session_keys (ensure_session_keys st) k = ensure_session_keys st k.
Proof.
  split; [apply ensure_session_keys_at|]. split.
  - rewrite ensure_session_keys_at. destruct (st k); discriminate.
  - rewrite (ensure_session_keys_at (ensure_session_keys st)), ensure_session_keys_at.
    destruct (st k); reflexivity.
Qed.

Lemma session_state_round_trip (s : Session) :
  session_of_state (state_of_session s) = Some s.
Proof. destruct s as [[so|] [er|] sm [ef|] sf]; reflexivity. Qed.

(** X16: on the empty state of a first run the guards give the fresh
    session, and on the state that an earlier run left they give back that
    session unchanged: a rerun never resets what the script stored. *)
Theorem guards_keep_session (s : Session) :
  session_of_state (ensure_session_keys empty_state) = Some initial_session
  /\ session_of_state (ensure_session_keys (state_of_session s)) = Some s.
Proof.
  split; [reflexivity|].
  unfold session_of_state. rewrite !ensure_session_keys_at.
  destruct s as [[so|] [er|] sm [ef|] sf]; reflexivity.
Qed.

(** ** Two more edge cases *)

(** X17: a reply that has the delimiter but only whitespace, or nothing,
    after it gives the empty string as rubric, not the sentinel: the
    sentinel is used only when the delimiter is missing. *)
Theorem empty_rubric_section (pre post : pystr) :
  py_in DELIM pre = false ->
  blank post = true ->
  parse_reply (pre ++ DELIM ++ post) = (strip (py_replace LABEL [] pre), [])
  /\ snd (parse_reply (pre ++ DELIM ++ post)) <> NO_RUBRIC.
Proof.
  intros Hpre B. rewrite parse_reply_first by exact Hpre.
  pose proof (blank_without_delimiter post B) as Hpost.
  apply py_in_false in Hpost. rewrite Hpost.
  apply strip_nil_iff in B. rewrite B. split; [reflexivity | discriminate].
Qed.

Lemma empty_rubric_section_witness :
  parse_reply (lit "SCENARIO: Foo" ++ nl ++ DELIM ++ nl) = (lit "Foo", []).
Proof.
  exact (proj1 (empty_rubric_section (lit "SCENARIO: Foo" ++ nl) nl eq_refl eq_refl)).
Defined.

(** X18: before a scenario exists only the Generate button does anything:
    a run with a Submit, Finish or Restart click, or with no click, leaves
    the session as it is, emits nothing and calls nothing. *)
Theorem setup_ignores_other_clicks (complete : Gateway) (w : Widgets) (s : Session) :
  scenario_output s = None ->
  simulation_finished s = false ->
  clicked w <> Some GenerateScenario ->
  main complete w s = (s, [], Done tt).
Proof.
  destruct s as [so er sm ef sf], w as [[[]|] ut us ur um ud ui]; simpl;
    intros -> -> H; try congruence; run_script; reflexivity.
Qed.

Lemma setup_ignores_other_clicks_witness :
  main times_out (click RestartEverything []) initial_session
  = (initial_session, [], Done tt).
Proof.
  refine (setup_ignores_other_clicks times_out (click RestartEverything [])
            initial_session eq_refl eq_refl _).
  simpl. discriminate.
Defined.

(** ** Triggering the evaluation (C5) *)

(** The first trigger of the evaluation, with a successful evaluator reply:
    the Finish run of a session with a scenario, or a run without click of a
    session that is finished already. *)
Lemma main_first_trigger complete w s fb :
  evaluation_feedback s = None ->
  (simulation_finished s = false /\ scenario_output s <> None
   /\ clicked w = Some FinishEvaluate)
  \/ (simulation_finished s = true /\ clicked w = None) ->
  complete (evaluator_request (scenario_output s)
              (render_transcript (simulation_messages s)) (evaluation_rubric s))
  = Text fb ->
  simulation_finished (session_of (main complete w s)) = true
  /\ evaluation_feedback (session_of (main complete w s)) = Some fb
  /\ length (calls (events_of (main complete w s))) = 1
  /\ stores K_evaluation_feedback (events_of (main complete w s)) = 1.
Proof.
  destruct s as [[so|] er sm ef sf], w as [c ut us ur um ud ui];
    cbn [evaluation_feedback simulation_finished scenario_output clicked
         simulation_messages evaluation_rubric];
    intros -> [(-> & Hso & ->) | (-> & ->)] H; try congruence;
    unfold evaluator_request in H; rewrite <- conversation_text_eval_eq in H;
    run_script; rewrite H; run_script; repeat split.
Qed.

(** C5, as stated, fails: when the evaluator call fails, feedback_text
    stays null and the next trigger calls the gateway again.  A finished
    session without feedback, re-rendered twice, gives two gateway calls,
    with one write when the second call succeeds and none when it fails
    too; and the Finish run with a failing call followed by one re-render
    gives two calls as well. *)
Lemma failed_evaluation_calls_again :
  reachable (session_of (main times_out (click FinishEvaluate []) simulating_session))
  /\ state_of (session_of (main times_out (click FinishEvaluate []) simulating_session))
     = FINISHED_evaluating
  /\ length (calls (snd (runs [(times_out, no_click); (replies (lit "Feedback."), no_click)]
                          (session_of (main times_out (click FinishEvaluate [])
                                         simulating_session)))))
     = 2
  /\ stores K_evaluation_feedback
       (snd (runs [(times_out, no_click); (times_out, no_click)]
               (session_of (main times_out (click FinishEvaluate []) simulating_session))))
     = 0
  /\ length (calls (snd (runs [(times_out, no_click); (times_out, no_click)]
                          (session_of (main times_out (click FinishEvaluate [])
                                         simulating_session)))))
     = 2
  /\ length (calls (snd (runs [(times_out, click FinishEvaluate []);
                               (replies (lit "Feedback."), no_click)]
                          simulating_session)))
     = 2.
Proof.
  split.
  - apply reachable_run, reachable_run, reachable_initial.
  - repeat split; vm_compute; reflexivity.
Qed.

(** C5, amended: when the evaluation is triggered any number of times and
    the evaluator call of the first trigger succeeds, there is exactly one
    gateway call and exactly one assignment to feedback_text in all.  The
    first trigger is the Finish run of a simulating session or a re-render
    of a session that is finished without feedback; the later triggers are
    re-renders.  Once feedback_text is set, triggering again makes no
    gateway call and no assignment and leaves the session, feedback_text
    included, as it is. *)
Theorem evaluation_once_after_success
    (first : Gateway * Widgets) (again : list (Gateway * Widgets))
    (s : Session) (fb : pystr) :
  evaluation_feedback s = None ->
  (simulation_finished s = false /\ scenario_output s <> None
   /\ clicked (snd first) = Some FinishEvaluate)
  \/ (simulation_finished s = true /\ clicked (snd first) = None) ->
  fst first (evaluator_request (scenario_output s)
               (render_transcript (simulation_messages s)) (evaluation_rubric s))
  = Text fb ->
  Forall rerender again ->
  length (calls (snd (runs (first :: again) s))) = 1
  /\ stores K_evaluation_feedback (snd (runs (first :: again) s)) = 1
  /\ evaluation_feedback (fst (runs (first :: again) s)) = Some fb
  /\ runs again (fst (runs [first] s)) = (fst (runs [first] s), []).
Proof.
  intros Hfb Hfirst Hc Hagain. destruct first as [complete w]. cbn [fst snd] in Hfirst, Hc.
  destruct (main_first_trigger complete w s fb Hfb Hfirst Hc) as (F1 & F2 & F3 & F4).
  pose proof (runs_evaluated_rerender again _ fb F1 F2 Hagain) as Hrest.
  rewrite runs_cons_session, runs_cons_events, Hrest. cbn [fst snd].
  rewrite app_nil_r. repeat split; assumption.
Qed.

Lemma evaluation_once_after_success_witness :
  length (calls (snd (runs [(replies (lit "Feedback: strong anchoring."),
                             click FinishEvaluate []);
                            (replies (lit "Other feedback."), no_click);
                            (times_out, no_click)]
                        simulating_session)))
  = 1
  /\ length (calls (snd (runs [(replies (lit "Feedback."), no_click);
                               (times_out, no_click)]
                          (session_of (main times_out (click FinishEvaluate [])
                                         simulating_session)))))
     = 1.
Proof.
  split.
  - refine (proj1 (evaluation_once_after_success
      (replies (lit "Feedback: strong anchoring."), click FinishEvaluate [])
      [(replies (lit "Other feedback."), no_click); (times_out, no_click)]
      simulating_session (lit "Feedback: strong anchoring.") eq_refl _ eq_refl _)).
    + left. repeat split. vm_compute. discriminate.
    + repeat constructor.
  - refine (proj1 (evaluation_once_after_success
      (replies (lit "Feedback."), no_click) [(times_out, no_click)]
      (session_of (main times_out (click FinishEvaluate []) simulating_session))
      (lit "Feedback.") eq_refl _ eq_refl _)).
    + right. split; reflexivity.
    + repeat constructor.
Defined.
